(** * Resim UDP frame codec and receiver statistics

    A shallow embedding of the frame encoders of [lane_change_test.py] and
    [udp_specific_test.py], of the decoder [parse_resim_data] and of the
    receive loop [udp_listener] of [udp_receiver.py], with the properties
    of the frame layout, the branch order of the decoder and the traffic
    statistics.

    Python [bytes] are lists of [byte]; a Python [str] is the list of its
    code points; Python integers are [Z]; the [stats] dictionary of
    counters is a [gmap]. *)

From Stdlib Require Import ZArith NArith List Lia Bool.
From Stdlib Require Import Strings.Byte Strings.Ascii Strings.String.
From Stdlib Require Import DecimalString.
From stdpp Require Import gmap list.

Local Open Scope Z_scope.

(** ** Bytes and strings *)

Abbreviation bytes := (list byte).

(** A Python [str]: its code points. *)
Abbreviation pystr := (list N).

(** A [bytes] literal [b'...'] with ASCII content. *)
Definition blit (s : string) : bytes := list_byte_of_string s.

(** A [str] literal with ASCII content. *)
Definition py (s : string) : pystr := map Byte.to_N (list_byte_of_string s).

(** [data[i:j]] for constant [0 <= i <= j]: out-of-range bounds are
    clamped, never an error. *)
Definition slice {A} (i j : nat) (l : list A) : list A := take (j - i) (drop i l).

(** [data.startswith(p)]. *)
Fixpoint startswith (data p : bytes) {struct p} : bool :=
  match p, data with
  | [], _ => true
  | _ :: _, [] => false
  | c :: p', d :: data' => Byte.eqb d c && startswith data' p'
  end.

(** [bs.decode('ascii', errors='replace')]: a byte above 0x7f becomes
    U+FFFD, every other byte is its own code point.  The call cannot raise,
    so the handlers around it in the source never run. *)
Definition decode_ascii_replace (bs : bytes) : pystr :=
  map (fun c => if (Byte.to_N c <? 128)%N then Byte.to_N c else 65533%N) bs.

(** The str produced by [bs.decode('utf-8', errors='replace')].  The
    decoder is total; the text is kept as the bytes it is decoded from. *)
Inductive text := Utf8Replace (raw : bytes).

Definition hexdigit (d : N) : N := (if d <? 10 then 48 + d else 87 + d)%N.

(** [binascii.hexlify(data).decode()]: two lower-case digits per byte. *)
Definition hexlify (data : bytes) : pystr :=
  flat_map (fun c => [hexdigit (Byte.to_N c / 16); hexdigit (Byte.to_N c mod 16)]) data.

(** A literal all of whose bytes are ASCII. *)
Definition is_ascii (lit : bytes) : bool :=
  forallb (fun c => (Byte.to_N c <? 128)%N) lit.

(** Two literals that differ at a position both have: no byte string
    starts with both. *)
Fixpoint conflict (p q : bytes) : bool :=
  match p, q with
  | c :: p', d :: q' => if Byte.eqb c d then conflict p' q' else true
  | _, _ => false
  end.

(** ** Exceptions *)

(** The exceptions of the modelled code: [struct.error]; the
    [OverflowError] of packing a float that does not fit a float32 or of
    a port outside 0..65535; the [ValueError] of [time.sleep] for a
    negative or NaN length; the [OSError] of a socket call. *)
Inductive exc := StructError | OverflowError | ValueError | OSError.

Inductive outcome (A : Type) :=
| Returned (a : A)
| Raised (e : exc).
Arguments Returned {A} a.
Arguments Raised {A} e.

Definition obind {A B} (m : outcome A) (k : A -> outcome B) : outcome B :=
  match m with
  | Returned a => k a
  | Raised e => Raised e
  end.

(** Does the call return (rather than raise). *)
Definition returns {A} (m : outcome A) : bool :=
  match m with
  | Returned _ => true
  | Raised _ => false
  end.

(** [try: m  except Exception as e: h e]. *)
Definition try_except {A} (m : outcome A) (h : exc -> outcome A) : outcome A :=
  match m with
  | Returned a => Returned a
  | Raised e => h e
  end.

Notation "'let!' x ':=' m 'in' k" := (obind m (fun x => k))
  (at level 10, x name, m at level 100, k at level 200).

(** ** struct *)

Definition int32_ok (x : Z) : bool := (- 2 ^ 31 <=? x) && (x <? 2 ^ 31).

Definition byte_of_Z (z : Z) : byte :=
  default x00 (Byte.of_N (Z.to_N (Z.land z 255))).

Definition Z_of_byte (c : byte) : Z := Z.of_N (Byte.to_N c).

(** The four bytes of the two's complement of [x], least significant
    first. *)
Definition le_bytes4 (x : Z) : bytes :=
  [byte_of_Z x; byte_of_Z (Z.shiftr x 8); byte_of_Z (Z.shiftr x 16);
   byte_of_Z (Z.shiftr x 24)].

(** [struct.pack('<i', x)]: struct.error outside the int32 range. *)
Definition pack_i (x : Z) : outcome bytes :=
  if int32_ok x then Returned (le_bytes4 x) else Raised StructError.

(** [struct.pack('<iii', a, b, c)]. *)
Definition pack_iii (a b c : Z) : outcome bytes :=
  let! xa := pack_i a in
  let! xb := pack_i b in
  let! xc := pack_i c in
  Returned (xa ++ xb ++ xc).

(** The signed value of four little-endian bytes. *)
Definition le_int32 (b0 b1 b2 b3 : byte) : Z :=
  let u := Z.lor (Z_of_byte b0)
             (Z.lor (Z.shiftl (Z_of_byte b1) 8)
                (Z.lor (Z.shiftl (Z_of_byte b2) 16) (Z.shiftl (Z_of_byte b3) 24))) in
  if u <? 2 ^ 31 then u else u - 2 ^ 32.

(** [struct.unpack('<i', s)[0]]: struct.error unless [s] has exactly four
    bytes. *)
Definition unpack_i (s : bytes) : outcome Z :=
  match s with
  | [b0; b1; b2; b3] => Returned (le_int32 b0 b1 b2 b3)
  | _ => Raised StructError
  end.

(** [struct.unpack('<iii', s)]. *)
Definition unpack_iii (s : bytes) : outcome (Z * Z * Z) :=
  if (length s =? 12)%nat then
    let! a := unpack_i (slice 0 4 s) in
    let! b := unpack_i (slice 4 8 s) in
    let! c := unpack_i (slice 8 12 s) in
    Returned (a, b, c)
  else Raised StructError.

(** ** Command encoders *)

Module LaneChangeTest.

(** [create_lane_change_command] of lane_change_test.py. *)
Definition create_lane_change_command (agent_id direction mode : Z) : outcome bytes :=
  let! body := pack_iii agent_id direction mode in
  Returned (blit "CL" ++ body).

Section Assigned.
(** Python floats and [struct.pack('<f', x)], which rounds a double to
    a float32 or raises, are taken as given. *)
Variable float : Type.
Variable pack_f : float -> outcome bytes.

(** [struct.pack('<iiif', a, b, c, x)]. *)
Definition pack_iiif (a b c : Z) (x : float) : outcome bytes :=
  let! xa := pack_i a in
  let! xb := pack_i b in
  let! xc := pack_i c in
  let! xx := pack_f x in
  Returned (xa ++ xb ++ xc ++ xx).

(** [create_assigned_lane_change_command]. *)
Definition create_assigned_lane_change_command
    (agent_id direction mode : Z) (distance : float) : outcome bytes :=
  let! body := pack_iiif agent_id direction mode distance in
  Returned (blit "CAL" ++ body).

(** [choices=[0, 1]] of an argparse argument: is the value accepted. *)
Definition in_choices (choices : list Z) (v : Z) : bool :=
  existsb (Z.eqb v) choices.

(** The lane-change command [main] builds from the arguments
    [--agent], [--direction], [--mode] and [--distance]: [None] when
    [parse_args] rejects the command line (it exits before any
    command is built), otherwise the outcome of the encoder [main]
    and [run_lane_change_test] call. *)
Definition main_command (agent direction mode : Z) (distance : option float)
  : option (outcome bytes) :=
  if in_choices [0; 1] direction && in_choices [0; 1] mode then
    Some (match distance with
          | Some d => create_assigned_lane_change_command agent direction mode d
          | None => create_lane_change_command agent direction mode
          end)
  else None.
End Assigned.

Definition create_start_simulation_command : bytes := blit "CS".
Definition create_stop_simulation_command : bytes := blit "CP".
Definition create_test_message : bytes := blit "TEST_MESSAGE_FROM_PYTHON".

End LaneChangeTest.

Module UdpSpecificTest.

Definition RESIM_IP : pystr := py "127.0.0.1".
Definition RESIM_PORT : Z := 20001.

Section Env.
(** The sender runs against [time.sleep] and the [sendto] of its UDP
    socket: a call of either returns or raises ([time.sleep] raises for a
    negative or NaN length, [sendto] for a port outside 0..65535 or on a
    socket error).  The outcome can differ from one call to the next, so
    each takes as first argument the iteration of the loop that makes the
    call.  Python floats are taken as given. *)
Variable float : Type.
Variable time_sleep : nat -> float -> outcome unit.
Variable sendto : nat -> bytes -> pystr * Z -> outcome unit.

(** The iterations [i, i+1, ...] of [for i in range(count)], [remaining]
    of them: the calls of [sock.sendto] made, each with its datagram and
    its destination, in order.  The loop is inside the [try]: when
    [time.sleep] or [sock.sendto] raises, the handler logs the error and no
    further call is made; a call of [sendto] that raises is the last of the
    list. *)
Fixpoint send_loop (command_data : bytes) (dest : pystr * Z) (interval : float)
    (i remaining : nat) : list (bytes * (pystr * Z)) :=
  match remaining with
  | O => []
  | S r =>
      match (if (0 <? i)%nat then time_sleep i interval else Returned tt) with
      | Raised _ => []
      | Returned _ =>
          (command_data, dest) ::
          match sendto i command_data dest with
          | Returned _ => send_loop command_data dest interval (S i) r
          | Raised _ => []
          end
      end
  end.

(** [send_lane_change_command] of udp_specific_test.py: the calls of
    [sock.sendto] it makes.  [ip] and [port] default to [RESIM_IP] and
    [RESIM_PORT] when they are [None].  The command is built once inside
    the [try]; when building it raises, the handler logs the error and
    [sendto] is never called. *)
Definition send_lane_change_command (agent_id direction mode : Z) (count : nat)
    (interval : float) (ip : option pystr) (port : option Z)
  : list (bytes * (pystr * Z)) :=
  let ip := default RESIM_IP ip in
  let port := default RESIM_PORT port in
  match (let! body := pack_iii agent_id direction mode in
         Returned (blit "CL" ++ body)) with
  | Returned command_data => send_loop command_data (ip, port) interval 0 count
  | Raised _ => []
  end.
End Env.

End UdpSpecificTest.

(** ** The decoder of udp_receiver.py *)

(** [{0: ..., 1: ..., 2: ...}.get(status, unknown(status))] of the SS
    branch. *)
Inductive status_str :=
| StatusStopped
| StatusRunning
| StatusPaused
| StatusUnknown (status : Z).

Definition status_lookup (status : Z) : status_str :=
  if status =? 0 then StatusStopped
  else if status =? 1 then StatusRunning
  else if status =? 2 then StatusPaused
  else StatusUnknown status.

(** The value returned by [parse_resim_data]: one constructor for each
    [return] of the source, carrying the values its f-string interpolates
    (a conditional expression inside the f-string is kept as its
    condition). *)
Inductive info :=
| PacketTooShort (hex_data : pystr)                      (* line 50 *)
| SyncSignal (prefix3 : pystr)                           (* line 66 *)
| VehicleStateData (prefix3 : pystr) (size : nat)        (* line 67 *)
| TestString (message : text)                            (* line 73 *)
| TestData (hex_data : pystr)                            (* line 75 *)
| AgentPositionData (size : nat)                         (* line 82 *)
| AgentStateData (size : nat)                            (* line 86 *)
| TrafficSignalData (size : nat)                         (* line 90 *)
| CounterTestMessage (counter : Z) (message : text)      (* line 97 *)
| TestMessageNoCounter (message : text)                  (* line 99 *)
| SimulationStatus (status : status_str)                 (* line 111 *)
| SimulationStatusUnparsed (hex_data : pystr)            (* line 113 *)
| SimulationStatusData (size : nat)                      (* line 114 *)
| LaneChangeCommand (agent_id : Z) (direction_is_0 : bool) (mode_is_0 : bool)
                                                         (* line 122 *)
| LaneChangeCommandError (e : exc) (hex_data : pystr)    (* line 124 *)
| LaneChangeResponse (agent_id : Z) (result_is_1 : bool) (reason : Z)
                                                         (* line 132 *)
| LaneChangeResponseError (e : exc) (hex_data : pystr)   (* line 134 *)
| StartSimulationCommand                                 (* line 138 *)
| PauseSimulationCommand                                 (* line 142 *)
| ResumeSimulationCommand                                (* line 146 *)
| ResimCommand (prefix2 : pystr) (hex_data : pystr)      (* line 150 *)
| Unrecognized (prefix4 : pystr) (size : nat) (hex60 : pystr)
                                                         (* line 153 *)
| ParseError (e : exc) (hex60 : pystr).                  (* line 157 *)

(** [s == lit] on str. *)
Definition str_eqb (s lit : pystr) : bool := bool_decide (s = lit).

(** The statements of [parse_resim_data] inside its outer [try], in the
    order of the source.  The inner [try]/[except] blocks are
    [try_except]; an exception that leaves this body is caught by the
    outer handler in [parse_resim_data]. *)
Definition parse_resim_data_body (data : bytes) : outcome info :=
  let hex_data := hexlify data in
  if (length data <? 2)%nat then Returned (PacketTooShort hex_data) else
  let prefix2 := decode_ascii_replace (take 2 data) in
  let prefix3 := if (3 <=? length data)%nat
                 then decode_ascii_replace (take 3 data) else prefix2 in
  let prefix4 := if (4 <=? length data)%nat
                 then decode_ascii_replace (take 4 data) else prefix3 in
  if str_eqb prefix3 (py "RSd") then
    if (length data =? 3)%nat then Returned (SyncSignal prefix3)
    else Returned (VehicleStateData prefix3 (length data))
  else if startswith data (blit "TEST_") then
    try_except
      (Returned (TestString (Utf8Replace data)))
      (fun _ => Returned (TestData hex_data))
  else if str_eqb prefix2 (py "AP") then
    Returned (AgentPositionData (length data))
  else if str_eqb prefix2 (py "AS") then
    Returned (AgentStateData (length data))
  else if str_eqb prefix2 (py "TS") then
    Returned (TrafficSignalData (length data))
  else if startswith data (blit "TSPY") then
    try_except
      (let! counter := unpack_i (slice 4 8 data) in
       Returned (CounterTestMessage counter (Utf8Replace (drop 8 data))))
      (fun _ => Returned (TestMessageNoCounter (Utf8Replace (drop 4 data))))
  else if str_eqb prefix2 (py "SS") then
    if (6 <=? length data)%nat then
      try_except
        (let! status := unpack_i (slice 2 6 data) in
         Returned (SimulationStatus (status_lookup status)))
        (fun _ => Returned (SimulationStatusUnparsed hex_data))
    else Returned (SimulationStatusData (length data))
  else if str_eqb prefix2 (py "CL") && (14 <=? length data)%nat then
    try_except
      (let! agent_id := unpack_i (slice 2 6 data) in
       let! direction := unpack_i (slice 6 10 data) in
       let! mode := unpack_i (slice 10 14 data) in
       Returned (LaneChangeCommand agent_id (direction =? 0) (mode =? 0)))
      (fun e => Returned (LaneChangeCommandError e hex_data))
  else if str_eqb prefix2 (py "RL") && (14 <=? length data)%nat then
    try_except
      (let! agent_id := unpack_i (slice 2 6 data) in
       let! result := unpack_i (slice 6 10 data) in
       let! reason := unpack_i (slice 10 14 data) in
       Returned (LaneChangeResponse agent_id (result =? 1) reason))
      (fun e => Returned (LaneChangeResponseError e hex_data))
  else if str_eqb prefix2 (py "CS") then Returned StartSimulationCommand
  else if str_eqb prefix2 (py "CP") then Returned PauseSimulationCommand
  else if str_eqb prefix2 (py "CR") then Returned ResumeSimulationCommand
  else if existsb (str_eqb prefix2) [py "RS"; py "RP"; py "RQ"; py "CC"] then
    Returned (ResimCommand prefix2 hex_data)
  else
    Returned (Unrecognized prefix4 (length data) (take 60 hex_data)).

(** [parse_resim_data]: the body under the outer [except Exception];
    [hex_data] is bound by the first statement of the body, so the handler
    always finds it in [locals()]. *)
Definition parse_resim_data (data : bytes) : info :=
  match parse_resim_data_body data with
  | Returned r => r
  | Raised e => ParseError e (take 60 (hexlify data))
  end.

(** The results built by an exception handler of the decoder. *)
Definition from_handler (i : info) : bool :=
  match i with
  | TestData _ | TestMessageNoCounter _ | SimulationStatusUnparsed _
  | LaneChangeCommandError _ _ | LaneChangeResponseError _ _
  | ParseError _ _ => true
  | _ => false
  end.

(** The reason table of [listen_for_response] in lane_change_test.py. *)
Inductive reason_str :=
| ReasonNone
| ReasonLaneMissing
| ReasonHazard
| ReasonBlocked
| ReasonUnknown (reason : Z).

Definition reason_lookup (reason : Z) : reason_str :=
  if reason =? 0 then ReasonNone
  else if reason =? 1 then ReasonLaneMissing
  else if reason =? 2 then ReasonHazard
  else if reason =? 3 then ReasonBlocked
  else ReasonUnknown reason.

(** What [listen_for_response] logs for one received datagram. *)
Inductive response_log :=
| LoggedLaneChangeResponse (agent_id : Z) (result_is_1 : bool) (reason : reason_str)
| LoggedParseError (e : exc)
| LoggedUnknownResponse (prefix : bytes).

Definition listen_for_response_parse (data : bytes) : response_log :=
  if startswith data (blit "RL") then
    match unpack_iii (slice 2 14 data) with
    | Returned (agent_id, result, reason) =>
        LoggedLaneChangeResponse agent_id (result =? 1) (reason_lookup reason)
    | Raised e => LoggedParseError e
    end
  else LoggedUnknownResponse (take 4 data).

(** The literals the branches of [parse_resim_data] test for, in the
    order of the source. *)
Definition registered_prefixes : list bytes :=
  map blit ["RSd"; "TEST_"; "AP"; "AS"; "TS"; "TSPY"; "SS"; "CL"; "RL"; "CS";
            "CP"; "CR"; "RS"; "RP"; "RQ"; "CC"]%string.

Definition matches_registered_prefix (data : bytes) : bool :=
  existsb (startswith data) registered_prefixes.

(** The counter message [send_test_message] of send_debug_message.py sends
    to the receiver: TSPY, the counter 1, and a text. *)
Definition debug_counter_frame : bytes :=
  blit "TSPY" ++ le_bytes4 1 ++ blit "Hello from debug sender".

(** ** The receive loop of udp_receiver.py *)

(** A sender address [(host, port)]. *)
Abbreviation address := (pystr * Z)%type.

(** An element of [stats['last_commands']]; [time] is a clock reading. *)
Record command_record := {
  cmd_time : Z;
  cmd_port : Z;
  cmd_from : address;
  cmd_data : pystr;
  cmd_info : info
}.

(** The global [stats] dictionary. *)
Record stats := {
  total_packets : Z;
  last_packet_time : option Z;
  command_counts : gmap pystr Z;
  last_commands : list command_record
}.

Definition initial_stats : stats :=
  {| total_packets := 0; last_packet_time := None;
     command_counts := ∅; last_commands := [] |}.

(** [d.get(k, 0)]. *)
Definition get0 (d : gmap pystr Z) (k : pystr) : Z := default 0 (d !! k).

(** What [sock.recvfrom] does in one iteration of the loop. *)
Inductive recv_result :=
| Datagram (data : bytes) (addr : address)
| SocketTimeout.

(** The statements of the loop body of [udp_listener] that touch [stats],
    for a received datagram, run with no step of another listener thread
    between them; [now] is the value of [datetime.now()].  The single
    accesses of [stats] the statements are made of, and their
    interleavings, are [listener_micro_step] and [run_schedule] below. *)
Definition on_datagram (port : Z) (now : Z) (data : bytes) (addr : address)
    (st : stats) : stats :=
  let total := total_packets st + 1 in
  let info := parse_resim_data data in
  let cmds := last_commands st ++
              [{| cmd_time := now; cmd_port := port; cmd_from := addr;
                  cmd_data := hexlify data; cmd_info := info |}] in
  let cmds := if (100 <? length cmds)%nat
              then drop (length cmds - 100) cmds else cmds in
  let counts :=
    if (2 <=? length data)%nat then
      let cmd_type := decode_ascii_replace (take 2 data) in
      <[cmd_type := get0 (command_counts st) cmd_type + 1]> (command_counts st)
    else command_counts st in
  {| total_packets := total; last_packet_time := Some now;
     command_counts := counts; last_commands := cmds |}.

(** One iteration of [while running]: a timeout leaves [stats] as it is. *)
Definition listener_step (port : Z) (st : stats) (ev : Z * recv_result) : stats :=
  match ev with
  | (now, Datagram data addr) => on_datagram port now data addr st
  | (_, SocketTimeout) => st
  end.

(** [udp_listener] over the receive events of one port, for a receiver
    with this listener only. *)
Definition udp_listener (port : Z) (events : list (Z * recv_result)) (st : stats) : stats :=
  fold_left (listener_step port) events st.

(** The receive events that hand a datagram to the loop body. *)
Definition is_datagram (ev : Z * recv_result) : bool :=
  match ev with
  | (_, Datagram _ _) => true
  | (_, SocketTimeout) => false
  end.

(** The datagrams of at least two bytes whose first two bytes decode
    to [key]. *)
Definition counted_under (key : pystr) (ev : Z * recv_result) : bool :=
  match ev with
  | (_, Datagram data _) =>
      (2 <=? length data)%nat && bool_decide (decode_ascii_replace (take 2 data) = key)
  | (_, SocketTimeout) => false
  end.

(** The records [udp_listener] appends to [stats['last_commands']] for one
    receive event. *)
Definition records_of (port : Z) (ev : Z * recv_result) : list command_record :=
  match ev with
  | (now, Datagram data addr) =>
      [{| cmd_time := now; cmd_port := port; cmd_from := addr;
          cmd_data := hexlify data; cmd_info := parse_resim_data data |}]
  | (_, SocketTimeout) => []
  end.

(** [l[-n:]] for a positive constant [n]. *)
Definition lastn {A} (n : nat) (l : list A) : list A := drop (length l - n) l.

(** The time of the last datagram among the events, if there is one. *)
Definition last_datagram_time (events : list (Z * recv_result)) : option Z :=
  last (map fst (filter is_datagram events)).

(** [sum(stats['command_counts'].values())]. *)
Definition counts_sum (d : gmap pystr Z) : Z :=
  map_fold (fun _ v acc => v + acc) 0 d.

(** The datagrams long enough to have a key. *)
Definition has_key (ev : Z * recv_result) : bool :=
  match ev with
  | (_, Datagram data _) => (2 <=? length data)%nat
  | (_, SocketTimeout) => false
  end.

(** ** The command handler of resim_simulator.py *)

Module ResimSimulator.

(** [handle_command]: the response handed to [send_sock.sendto], [None]
    when nothing is sent.  The packing of the SS responses is outside
    any [try]; the CL and TEST_ branches have their own handlers, which
    leave [response] at [None]. *)
Definition handle_command (data : bytes) : outcome (option bytes) :=
  if (length data <? 2)%nat then Returned None else
  let prefix := decode_ascii_replace (take 2 data) in
  let! response :=
    if str_eqb prefix (py "CS") then
      let! status := pack_i 1 in
      Returned (Some (blit "SS" ++ status))
    else if str_eqb prefix (py "CP") then
      let! status := pack_i 2 in
      Returned (Some (blit "SS" ++ status))
    else if str_eqb prefix (py "CL") && (14 <=? length data)%nat then
      try_except
        (let! agent_id := unpack_i (slice 2 6 data) in
         let! direction := unpack_i (slice 6 10 data) in
         let! mode := unpack_i (slice 10 14 data) in
         let! body := pack_iii agent_id 1 0 in
         Returned (Some (blit "RL" ++ body)))
        (fun _ => Returned None)
    else if startswith data (blit "TEST_") then
      try_except
        (Returned (Some (blit "TEST_RESPONSE_FROM_RESIM")))
        (fun _ => Returned None)
    else Returned None in
  Returned (match response with
            | Some (c :: r) => Some (c :: r)
            | _ => None
            end).

End ResimSimulator.

(** ** The lane changer of resim_lane_change.py *)

Module ResimLaneChange.

Inductive LaneChangeDirection := LEFT | RIGHT.

Definition direction_value (d : LaneChangeDirection) : Z :=
  match d with LEFT => 0 | RIGHT => 1 end.

Inductive LaneChangeMode := CHECK_RISK | FORCE_CHANGE.

Definition mode_value (m : LaneChangeMode) : Z :=
  match m with CHECK_RISK => 0 | FORCE_CHANGE => 1 end.

(** [request_lane_change]: the returned flag and the datagrams sent.  The
    command is built by three [command += struct.pack('<i', ...)] inside
    the [try]; the handler returns [False]. *)
Definition request_lane_change (agent_id : Z) (direction : LaneChangeDirection)
    (mode : LaneChangeMode) : bool * list bytes :=
  match (let command := blit "FCAL" in
         let! a := pack_i agent_id in
         let command := command ++ a in
         let! d := pack_i (direction_value direction) in
         let command := command ++ d in
         let! m := pack_i (mode_value mode) in
         Returned (command ++ m)) with
  | Returned command => (true, [command])
  | Raised _ => (false, [])
  end.

Definition other_direction (d : LaneChangeDirection) : LaneChangeDirection :=
  match d with LEFT => RIGHT | RIGHT => LEFT end.

(** [n] iterations of the loop of [_cyclic_lane_change_worker], from the
    direction [current]: the datagrams sent. *)
Fixpoint cyclic_iterations (agent_id : Z) (alternate_direction : bool)
    (current : LaneChangeDirection) (n : nat) : list bytes :=
  match n with
  | O => []
  | S n' =>
      snd (request_lane_change agent_id current FORCE_CHANGE)
      ++ cyclic_iterations agent_id alternate_direction
           (if alternate_direction then other_direction current else current) n'
  end.

(** [_cyclic_lane_change_worker] stopped after [n] iterations. *)
Definition cyclic_lane_change_worker (agent_id : Z) (alternate_direction : bool)
    (n : nat) : list bytes :=
  cyclic_iterations agent_id alternate_direction LEFT n.

End ResimLaneChange.

(** ** The continuous sender of send_debug_message.py *)

Module SendDebugMessage.

(** [str(n).encode()] for a natural number. *)
Definition decimal (n : nat) : bytes :=
  list_byte_of_string (NilEmpty.string_of_uint (Nat.to_uint n)).

(** The message built for one value of [counter]. *)
Definition continuous_message (counter : nat) : outcome bytes :=
  let! c := pack_i (Z.of_nat counter) in
  Returned (blit "TSPY" ++ c ++ (blit "Continuous test message #" ++ decimal counter)).

Definition TARGET_IP : pystr := py "127.0.0.1".
Definition TARGET_PORT : Z := 20000.

Section Env.
(** [time.sleep] and the [sendto] of the socket, as in
    [UdpSpecificTest]: a call returns or raises, and the first argument is
    the iteration of the loop that makes the call. *)
Variable float : Type.
Variable time_sleep : nat -> float -> outcome unit.
Variable sendto : nat -> bytes -> pystr * Z -> outcome unit.

(** The iterations [i, i+1, ...] of [for i in range(count)], [remaining]
    of them: the calls of [sock.sendto] made, in order.  The message is
    built, sent, and then, except after the last one, the loop sleeps; an
    exception of any of the three ends the loop in the handler, and a call
    of [sendto] that raises is the last of the list. *)
Fixpoint send_from (count : nat) (interval : float) (i remaining : nat)
    : list (bytes * (pystr * Z)) :=
  match remaining with
  | O => []
  | S r =>
      match continuous_message (i + 1) with
      | Raised _ => []
      | Returned message =>
          (message, (TARGET_IP, TARGET_PORT)) ::
          match sendto i message (TARGET_IP, TARGET_PORT) with
          | Raised _ => []
          | Returned _ =>
              match (if (i <? count - 1)%nat then time_sleep i interval
                     else Returned tt) with
              | Raised _ => []
              | Returned _ => send_from count interval (S i) r
              end
          end
      end
  end.

(** [send_continuous_messages(count, interval)]. *)
Definition send_continuous_messages (count : nat) (interval : float)
  : list (bytes * (pystr * Z)) :=
  send_from count interval 0 count.
End Env.

End SendDebugMessage.

(** ** Listener threads on the shared statistics

    [main] starts one [udp_listener] thread per port, two by default, and
    all of them run the loop body on the one module-global [stats], with
    no lock.  A thread switch can fall between any two accesses of the
    shared objects, so the body is split here into its accesses, and a
    run of the receiver is an interleaving of the steps of its listeners.
    [on_datagram] and [udp_listener] above are the loop body and the loop
    of a listener whose steps no other listener interleaves with, as when
    [main] is given a single port. *)

(** The objects behind [stats]: the numbers and the time it holds, the
    dict of counters, which is mutated in place, and the list objects.
    [stats['last_commands']] holds a reference to a list object; line 192
    binds it to a new object while a reference loaded before still
    denotes the old one. *)
Record shared := {
  sh_total : Z;
  sh_time : option Z;
  sh_counts : gmap pystr Z;
  sh_cmds : nat;
  sh_heap : gmap nat (list command_record);
  sh_next : nat
}.

(** The list a reference denotes. *)
Definition deref (s : shared) (r : nat) : list command_record :=
  default [] (sh_heap s !! r).

(** The value of [stats]. *)
Definition stats_of (s : shared) : stats :=
  {| total_packets := sh_total s; last_packet_time := sh_time s;
     command_counts := sh_counts s; last_commands := deref s (sh_cmds s) |}.

(** The objects for a given value of [stats]. *)
Definition share (st : stats) : shared :=
  {| sh_total := total_packets st; sh_time := last_packet_time st;
     sh_counts := command_counts st; sh_cmds := 0;
     sh_heap := {[ 0%nat := last_commands st ]}; sh_next := 1 |}.

(** Where a listener is in its loop, with the local values it holds. *)
Inductive pc :=
| Idle                                                   (* line 172, at recvfrom *)
| ReadTotal (now : Z) (data : bytes) (addr : address)    (* line 175, read *)
| WriteTotal (total : Z) (now : Z) (data : bytes) (addr : address)
                                                         (* line 175, store *)
| WriteTime (now : Z) (data : bytes) (addr : address)    (* line 176 *)
| LoadCommands (now : Z) (data : bytes) (addr : address) (* line 182, the list *)
| ReadTime (cmds : nat) (now : Z) (data : bytes) (addr : address)
                                                         (* line 183 *)
| Append (cmds : nat) (time : Z) (data : bytes) (addr : address)
                                                         (* line 182, append *)
| LoadForLength (data : bytes)                           (* line 191, the list *)
| CheckLength (cmds : nat) (data : bytes)                (* line 191, len *)
| LoadForSlice (data : bytes)                            (* line 192, the list *)
| SliceCommands (cmds : nat) (data : bytes)              (* line 192, slice *)
| StoreCommands (l : list command_record) (data : bytes) (* line 192, store *)
| GetCount (cmd_type : pystr)                            (* line 201, get *)
| StoreCount (count : Z) (cmd_type : pystr).             (* line 201, store *)

(** Lines 195-197, which touch no shared object: where the listener goes
    after the list of recent commands. *)
Definition after_commands (data : bytes) : pc :=
  if (2 <=? length data)%nat then GetCount (decode_ascii_replace (take 2 data))
  else Idle.

(** A listener thread: its port, where it is, and the receive events it
    still has to see. *)
Record listener := {
  li_port : Z;
  li_pc : pc;
  li_inbox : list (Z * recv_result)
}.

Definition at_pc (th : listener) (p : pc) : listener :=
  {| li_port := li_port th; li_pc := p; li_inbox := li_inbox th |}.

(** One step of a listener: one access of the shared objects (or, at
    [Idle], the return of [recvfrom]).  A listener with nothing left to
    receive stays [Idle]. *)
Definition listener_micro_step (s : shared) (th : listener) : shared * listener :=
  match li_pc th with
  | Idle =>
      match li_inbox th with
      | [] => (s, th)
      | (now, Datagram data addr) :: rest =>
          (s, {| li_port := li_port th; li_pc := ReadTotal now data addr;
                 li_inbox := rest |})
      | (_, SocketTimeout) :: rest =>
          (s, {| li_port := li_port th; li_pc := Idle; li_inbox := rest |})
      end
  | ReadTotal now data addr =>
      (s, at_pc th (WriteTotal (sh_total s) now data addr))
  | WriteTotal total now data addr =>
      ({| sh_total := total + 1; sh_time := sh_time s; sh_counts := sh_counts s;
          sh_cmds := sh_cmds s; sh_heap := sh_heap s; sh_next := sh_next s |},
       at_pc th (WriteTime now data addr))
  | WriteTime now data addr =>
      ({| sh_total := sh_total s; sh_time := Some now; sh_counts := sh_counts s;
          sh_cmds := sh_cmds s; sh_heap := sh_heap s; sh_next := sh_next s |},
       at_pc th (LoadCommands now data addr))
  | LoadCommands now data addr =>
      (s, at_pc th (ReadTime (sh_cmds s) now data addr))
  | ReadTime cmds now data addr =>
      (* [sh_time] was set by this listener at line 176 and is never reset,
         so the default is not used. *)
      (s, at_pc th (Append cmds (default now (sh_time s)) data addr))
  | Append cmds time data addr =>
      ({| sh_total := sh_total s; sh_time := sh_time s; sh_counts := sh_counts s;
          sh_cmds := sh_cmds s;
          sh_heap := <[cmds := deref s cmds ++
                         [{| cmd_time := time; cmd_port := li_port th;
                             cmd_from := addr; cmd_data := hexlify data;
                             cmd_info := parse_resim_data data |}]]> (sh_heap s);
          sh_next := sh_next s |},
       at_pc th (LoadForLength data))
  | LoadForLength data =>
      (s, at_pc th (CheckLength (sh_cmds s) data))
  | CheckLength cmds data =>
      (s, at_pc th (if (100 <? length (deref s cmds))%nat
                    then LoadForSlice data else after_commands data))
  | LoadForSlice data =>
      (s, at_pc th (SliceCommands (sh_cmds s) data))
  | SliceCommands cmds data =>
      (s, at_pc th (StoreCommands (lastn 100 (deref s cmds)) data))
  | StoreCommands l data =>
      ({| sh_total := sh_total s; sh_time := sh_time s; sh_counts := sh_counts s;
          sh_cmds := sh_next s; sh_heap := <[sh_next s := l]> (sh_heap s);
          sh_next := S (sh_next s) |},
       at_pc th (after_commands data))
  | GetCount cmd_type =>
      (s, at_pc th (StoreCount (get0 (sh_counts s) cmd_type) cmd_type))
  | StoreCount count cmd_type =>
      ({| sh_total := sh_total s; sh_time := sh_time s;
          sh_counts := <[cmd_type := count + 1]> (sh_counts s);
          sh_cmds := sh_cmds s; sh_heap := sh_heap s; sh_next := sh_next s |},
       at_pc th Idle)
  end.

(** [n] steps of one listener with no step of another in between. *)
Fixpoint steps_alone (n : nat) (s : shared) (th : listener) : shared * listener :=
  match n with
  | O => (s, th)
  | S n' =>
      let '(s', th') := listener_micro_step s th in
      steps_alone n' s' th'
  end.

(** The receiver: the shared objects and its listener threads. *)
Record receiver := {
  rc_shared : shared;
  rc_listeners : list listener
}.

(** The listener [i] takes one step. *)
Definition schedule_step (r : receiver) (i : nat) : receiver :=
  match rc_listeners r !! i with
  | Some th =>
      let '(s, th') := listener_micro_step (rc_shared r) th in
      {| rc_shared := s; rc_listeners := <[i := th']> (rc_listeners r) |}
  | None => r
  end.

(** A run of the receiver: the listeners step in the order of the
    schedule. *)
Definition run_schedule (schedule : list nat) (r : receiver) : receiver :=
  fold_left schedule_step schedule r.

(** The receiver as [main] starts it: one listener per port, each with
    the receive events of its socket. *)
Definition start (ports : list (Z * list (Z * recv_result))) (st : stats) : receiver :=
  {| rc_shared := share st;
     rc_listeners :=
       map (fun pe => {| li_port := fst pe; li_pc := Idle; li_inbox := snd pe |}) ports |}.

(** The value of [stats] after a run. *)
Definition stats_after (schedule : list nat)
    (ports : list (Z * list (Z * recv_result))) (st : stats) : stats :=
  stats_of (rc_shared (run_schedule schedule (start ports st))).

(** How many steps the schedule gives to listener [i]. *)
Definition steps_of (i : nat) (schedule : list nat) : nat :=
  length (filter (fun j => j = i) schedule).

(** Have all listeners seen all their events and finished the loop body. *)
Definition all_done (r : receiver) : bool :=
  forallb (fun th => match li_pc th, li_inbox th with
                     | Idle, [] => true
                     | _, _ => false
                     end) (rc_listeners r).

(** Is the datagram counted under [key] by line 201. *)
Definition counted (key : pystr) (data : bytes) : bool :=
  (2 <=? length data)%nat && bool_decide (decode_ascii_replace (take 2 data) = key).

(** The stores to [stats['total_packets']] a listener still has to make:
    one for each datagram it has not yet seen and one for the datagram it
    is handling, until line 175 has stored. *)
Definition owes_total (th : listener) : nat :=
  length (filter is_datagram (li_inbox th))
  + match li_pc th with
    | ReadTotal _ _ _ | WriteTotal _ _ _ _ => 1
    | _ => 0
    end.

(** The stores to the counter of [key] a listener still has to make. *)
Definition owes_key (key : pystr) (th : listener) : nat :=
  length (filter (counted_under key) (li_inbox th))
  + match li_pc th with
    | Idle => 0
    | ReadTotal _ data _ | WriteTotal _ _ data _ | WriteTime _ data _
    | LoadCommands _ data _ | ReadTime _ _ data _ | Append _ _ data _
    | LoadForLength data | CheckLength _ data | LoadForSlice data
    | SliceCommands _ data | StoreCommands _ data =>
        if counted key data then 1 else 0
    | GetCount cmd_type | StoreCount _ cmd_type =>
        if bool_decide (cmd_type = key) then 1 else 0
    end.

(** What a listener holds in its local values is within the bound. *)
Definition local_ok (T K : Z) (key : pystr) (th : listener) : Prop :=
  match li_pc th with
  | WriteTotal total _ _ _ => total <= T
  | StoreCount count cmd_type => cmd_type = key -> count <= K
  | _ => True
  end.

(** The invariant of the bounds [T] on the total and [K] on the counter
    of [key]: the values stored and held stay below the bound minus the
    stores still to come. *)
Definition within_bounds (T K : Z) (key : pystr) (r : receiver) : Prop :=
  let PT := Z.of_nat (sum_list (map owes_total (rc_listeners r))) in
  let PK := Z.of_nat (sum_list (map (owes_key key) (rc_listeners r))) in
  sh_total (rc_shared r) <= T - PT
  /\ get0 (sh_counts (rc_shared r)) key <= K - PK
  /\ Forall (local_ok (T - PT) (K - PK) key) (rc_listeners r).

(** The datagrams all listeners receive, and those counted under
    [key]. *)
Definition datagrams_of (ports : list (Z * list (Z * recv_result))) : nat :=
  sum_list (map (fun pe => length (filter is_datagram (snd pe))) ports).

Definition keyed_of (key : pystr) (ports : list (Z * list (Z * recv_result))) : nat :=
  sum_list (map (fun pe => length (filter (counted_under key) (snd pe))) ports).

(** ** Properties of struct *)

Lemma Z_of_byte_range c : 0 <= Z_of_byte c < 256.
Proof.
  unfold Z_of_byte. pose proof (Byte.to_N_bounded c). lia.
Qed.

Lemma Z_of_byte_of_Z z : Z_of_byte (byte_of_Z z) = z mod 256.
Proof.
  unfold Z_of_byte, byte_of_Z.
  change 255 with (Z.ones 8). rewrite Z.land_ones by lia.
  change (2 ^ 8) with 256.
  pose proof (Z.mod_pos_bound z 256 ltac:(lia)) as Hb.
  destruct (Byte.of_N (Z.to_N (z mod 256))) as [c|] eqn:E; simpl.
  - apply Byte.to_of_N in E. rewrite E. lia.
  - apply Byte.of_N_None_iff in E. lia.
Qed.

Lemma int32_ok_spec x : int32_ok x = true <-> - 2 ^ 31 <= x < 2 ^ 31.
Proof. unfold int32_ok. rewrite andb_true_iff, Z.leb_le, Z.ltb_lt. tauto. Qed.

Lemma lor_shiftl_add a b k :
  0 <= k -> 0 <= a < 2 ^ k -> Z.lor a (Z.shiftl b k) = a + 2 ^ k * b.
Proof.
  intros Hk Ha.
  assert (Hdisj : Z.land a (Z.shiftl b k) = 0).
  { apply Z.bits_inj'; intros n Hn. rewrite Z.land_spec, Z.bits_0.
    destruct (Z.ltb_spec n k).
    - rewrite Z.shiftl_spec_low by lia. apply andb_false_r.
    - rewrite <- (Z.mod_small a (2 ^ k)) by lia.
      rewrite Z.mod_pow2_bits_high by lia. reflexivity. }
  rewrite <- Z.lxor_lor, <- Z.add_nocarry_lxor by assumption.
  rewrite Z.shiftl_mul_pow2 by lia. lia.
Qed.

Lemma le_int32_eq b0 b1 b2 b3 :
  le_int32 b0 b1 b2 b3 =
  let u := Z_of_byte b0 + 2 ^ 8 * (Z_of_byte b1 + 2 ^ 8 * (Z_of_byte b2
           + 2 ^ 8 * Z_of_byte b3)) in
  if u <? 2 ^ 31 then u else u - 2 ^ 32.
Proof.
  unfold le_int32.
  pose proof (Z_of_byte_range b0). pose proof (Z_of_byte_range b1).
  pose proof (Z_of_byte_range b2). pose proof (Z_of_byte_range b3).
  assert (E : Z.lor (Z_of_byte b0)
                (Z.lor (Z.shiftl (Z_of_byte b1) 8)
                   (Z.lor (Z.shiftl (Z_of_byte b2) 16) (Z.shiftl (Z_of_byte b3) 24)))
              = Z_of_byte b0 + 2 ^ 8 * (Z_of_byte b1 + 2 ^ 8 * (Z_of_byte b2
                + 2 ^ 8 * Z_of_byte b3))).
  { change 16 with (8 + 8). change 24 with (8 + (8 + 8)).
    rewrite <- !Z.shiftl_shiftl by lia.
    rewrite <- !Z.shiftl_lor.
    rewrite !lor_shiftl_add by lia. reflexivity. }
  cbv zeta. rewrite E. reflexivity.
Qed.

Lemma le_bytes4_value x :
  - 2 ^ 31 <= x < 2 ^ 31 ->
  match le_bytes4 x with
  | [b0; b1; b2; b3] => le_int32 b0 b1 b2 b3 = x
  | _ => False
  end.
Proof.
  intros Hx. unfold le_bytes4. rewrite le_int32_eq. cbv zeta.
  rewrite !Z_of_byte_of_Z, !Z.shiftr_div_pow2 by lia.
  change (2 ^ 16) with (2 ^ 8 * 2 ^ 8). change (2 ^ 24) with (2 ^ 8 * 2 ^ 8 * 2 ^ 8).
  rewrite <- !Z.div_div by lia.
  change (2 ^ 8) with 256 in *.
  set (q1 := x / 256). set (q2 := q1 / 256). set (q3 := q2 / 256).
  pose proof (Z.div_mod x 256 ltac:(lia)) as E1.
  pose proof (Z.div_mod q1 256 ltac:(lia)) as E2.
  pose proof (Z.div_mod q2 256 ltac:(lia)) as E3.
  pose proof (Z.div_mod q3 256 ltac:(lia)) as E4.
  pose proof (Z.mod_pos_bound x 256 ltac:(lia)).
  pose proof (Z.mod_pos_bound q1 256 ltac:(lia)).
  pose proof (Z.mod_pos_bound q2 256 ltac:(lia)).
  pose proof (Z.mod_pos_bound q3 256 ltac:(lia)).
  fold q1 in E1. fold q2 in E2. fold q3 in E3.
  change (2 ^ 31) with 2147483648 in *. change (2 ^ 32) with 4294967296.
  destruct (Z.ltb_spec (x mod 256 + 256 * (q1 mod 256 + 256 * (q2 mod 256 + 256 * (q3 mod 256))))
              2147483648); lia.
Qed.

Lemma unpack_pack_i x :
  - 2 ^ 31 <= x < 2 ^ 31 -> unpack_i (le_bytes4 x) = Returned x.
Proof.
  intros Hx. pose proof (le_bytes4_value x Hx) as H.
  unfold le_bytes4 in *. simpl. now rewrite H.
Qed.

Lemma pack_i_ok x : - 2 ^ 31 <= x < 2 ^ 31 -> pack_i x = Returned (le_bytes4 x).
Proof.
  intros Hx. unfold pack_i. apply int32_ok_spec in Hx. now rewrite Hx.
Qed.

Lemma pack_i_raises x : ~ (- 2 ^ 31 <= x < 2 ^ 31) -> pack_i x = Raised StructError.
Proof.
  intros Hx. unfold pack_i. destruct (int32_ok x) eqn:E; [|reflexivity].
  apply int32_ok_spec in E. contradiction.
Qed.

Lemma pack_iii_ok a b c :
  - 2 ^ 31 <= a < 2 ^ 31 -> - 2 ^ 31 <= b < 2 ^ 31 -> - 2 ^ 31 <= c < 2 ^ 31 ->
  pack_iii a b c = Returned (le_bytes4 a ++ le_bytes4 b ++ le_bytes4 c).
Proof.
  intros Ha Hb Hc. unfold pack_iii. now rewrite !pack_i_ok.
Qed.

Lemma send_loop_once (float : Type) (time_sleep : nat -> float -> outcome unit)
    (sendto : nat -> bytes -> pystr * Z -> outcome unit) cmd dest interval :
  UdpSpecificTest.send_loop float time_sleep sendto cmd dest interval 0 1 = [(cmd, dest)].
Proof.
  cbn [UdpSpecificTest.send_loop Nat.ltb Nat.leb]. now destruct (sendto 0%nat cmd dest).
Qed.

(** ** The lane-change command on the wire *)

(** C1: [create_lane_change_command] and [send_lane_change_command] build
    ASCII CL followed by agentId, direction and mode as little-endian
    int32 in that order, for all int32 values: the frame has 14 bytes, each
    four-byte field unpacks to the value it was built from, and for
    agentId=10, direction=0, mode=1 the frame is
    43 4C 0A 00 00 00 00 00 00 00 01 00 00 00. *)
Theorem lane_change_command_layout (agent_id direction mode : Z)
  (Ha : - 2 ^ 31 <= agent_id < 2 ^ 31)
  (Hd : - 2 ^ 31 <= direction < 2 ^ 31)
  (Hm : - 2 ^ 31 <= mode < 2 ^ 31) :
  let frame := [x43; x4c] ++ le_bytes4 agent_id ++ le_bytes4 direction ++ le_bytes4 mode in
  LaneChangeTest.create_lane_change_command agent_id direction mode = Returned frame
  /\ (forall (float : Type) (time_sleep : nat -> float -> outcome unit)
             (sendto : nat -> bytes -> pystr * Z -> outcome unit)
             (interval : float) (ip : option pystr) (port : option Z),
         UdpSpecificTest.send_lane_change_command float time_sleep sendto
           agent_id direction mode 1 interval ip port
         = [(frame, (default UdpSpecificTest.RESIM_IP ip,
                     default UdpSpecificTest.RESIM_PORT port))])
  /\ length frame = 14%nat
  /\ unpack_i (slice 2 6 frame) = Returned agent_id
  /\ unpack_i (slice 6 10 frame) = Returned direction
  /\ unpack_i (slice 10 14 frame) = Returned mode
  /\ LaneChangeTest.create_lane_change_command 10 0 1
     = Returned [x43; x4c; x0a; x00; x00; x00; x00; x00; x00; x00; x01; x00; x00; x00].
Proof.
  intros frame.
  unfold LaneChangeTest.create_lane_change_command,
    UdpSpecificTest.send_lane_change_command.
  rewrite (pack_iii_ok _ _ _ Ha Hd Hm).
  repeat split; try reflexivity.
  - intros float time_sleep sendto interval ip port. cbn [obind].
    apply send_loop_once.
  - change (slice 2 6 frame) with (le_bytes4 agent_id). now apply unpack_pack_i.
  - change (slice 6 10 frame) with (le_bytes4 direction). now apply unpack_pack_i.
  - change (slice 10 14 frame) with (le_bytes4 mode). now apply unpack_pack_i.
Qed.

Lemma lane_change_command_layout_witness :
  LaneChangeTest.create_lane_change_command 10 0 1
  = Returned [x43; x4c; x0a; x00; x00; x00; x00; x00; x00; x00; x01; x00; x00; x00]
  /\ UdpSpecificTest.send_lane_change_command unit
       (fun _ _ => Returned tt) (fun _ _ _ => Returned tt) 10 0 1 1 tt None None
     = [([x43; x4c; x0a; x00; x00; x00; x00; x00; x00; x00; x01; x00; x00; x00],
         (py "127.0.0.1", 20001))].
Proof.
  assert (H10 : - 2 ^ 31 <= 10 < 2 ^ 31) by lia.
  assert (H0 : - 2 ^ 31 <= 0 < 2 ^ 31) by lia.
  assert (H1 : - 2 ^ 31 <= 1 < 2 ^ 31) by lia.
  destruct (lane_change_command_layout 10 0 1 H10 H0 H1) as (Hc & Hs & _).
  split; [exact Hc |].
  exact (Hs unit (fun _ _ => Returned tt) (fun _ _ _ => Returned tt) tt None None).
Defined.

(** ** Prefix tests on raw bytes

    The decoder compares ASCII-decoded prefixes with str literals; for an
    ASCII literal this is the same test as a comparison of the raw bytes. *)

Lemma to_N_inj a b : Byte.to_N a = Byte.to_N b -> a = b.
Proof.
  intros H. pose proof (Byte.of_to_N a) as Ea. pose proof (Byte.of_to_N b) as Eb.
  rewrite H in Ea. congruence.
Qed.

Lemma decode_ascii_replace_lit bs lit :
  is_ascii lit = true ->
  decode_ascii_replace bs = map Byte.to_N lit <-> bs = lit.
Proof.
  revert lit. induction bs as [|c bs IH]; intros [|l lit] Hlit; simpl; try easy.
  simpl in Hlit. apply andb_true_iff in Hlit as [Hl Hlit].
  apply N.ltb_lt in Hl. split.
  - intros E. injection E as E1 E2. apply IH in E2; [|assumption]. subst.
    f_equal. destruct (N.ltb_spec (Byte.to_N c) 128).
    + now apply to_N_inj.
    + lia.
  - intros E. injection E as -> ->.
    apply N.ltb_lt in Hl. rewrite Hl. f_equal. now apply IH.
Qed.

Lemma startswith_true_iff data p :
  startswith data p = true <-> take (length p) data = p.
Proof.
  revert data. induction p as [|c p IH]; intros data; simpl.
  - rewrite take_0. split; reflexivity.
  - destruct data as [|d data]; simpl; [easy|].
    rewrite andb_true_iff, IH. split.
    + intros [E ->]. apply Byte.byte_dec_bl in E. now subst.
    + intros E. injection E as -> E. split; [now apply Byte.byte_dec_lb | assumption].
Qed.

Lemma startswith_app data p q :
  startswith data (p ++ q) = true -> startswith data p = true.
Proof.
  revert data. induction p as [|c p IH]; intros data; simpl; [easy|].
  destruct data as [|d data]; [easy|].
  rewrite !andb_true_iff. intros [E H]. split; [assumption | now apply IH].
Qed.

Lemma startswith_conflict data p q :
  startswith data p = true -> conflict p q = true -> startswith data q = false.
Proof.
  revert data q. induction p as [|c p IH]; intros data [|d q]; simpl; try easy.
  destruct data as [|e data]; [easy|].
  rewrite andb_true_iff. intros [E H] C.
  apply Byte.byte_dec_bl in E. subst e.
  destruct (Byte.eqb c d) eqn:Ecd; simpl; [|reflexivity].
  now apply IH.
Qed.

Lemma prefix_test n data s :
  is_ascii (blit s) = true -> length (blit s) = n ->
  str_eqb (decode_ascii_replace (take n data)) (py s) = startswith data (blit s).
Proof.
  intros Hs <-. apply Bool.eq_iff_eq_true.
  unfold str_eqb, py. rewrite bool_decide_eq_true.
  fold (blit s). rewrite decode_ascii_replace_lit by assumption.
  symmetry. apply startswith_true_iff.
Qed.

Lemma prefix3_eq data :
  (if (3 <=? length data)%nat then decode_ascii_replace (take 3 data)
   else decode_ascii_replace (take 2 data))
  = decode_ascii_replace (take 3 data).
Proof.
  destruct (Nat.leb_spec 3 (length data)); [reflexivity|].
  now rewrite !take_ge by lia.
Qed.

Lemma prefix4_eq data :
  (if (4 <=? length data)%nat then decode_ascii_replace (take 4 data)
   else decode_ascii_replace (take 3 data))
  = decode_ascii_replace (take 4 data).
Proof.
  destruct (Nat.leb_spec 4 (length data)); [reflexivity|].
  now rewrite !take_ge by lia.
Qed.

(** Rewrites every prefix test of the decoder to a test on raw bytes. *)
Ltac byte_tests :=
  unfold parse_resim_data_body; cbv zeta; cbn [existsb];
  rewrite ?prefix3_eq; rewrite ?prefix4_eq;
  rewrite ?(prefix_test 2) by reflexivity;
  rewrite ?(prefix_test 3) by reflexivity.

(** Decides the tests that contradict a prefix the frame is known to have. *)
Ltac other_prefixes H :=
  repeat match goal with
         | |- context [startswith ?d (blit ?s)] =>
             rewrite (startswith_conflict d _ (blit s) H eq_refl)
         end.

Lemma length_slice_4 (i : nat) (data : bytes) :
  (i + 4 <= length data)%nat ->
  exists b0 b1 b2 b3, slice i (i + 4) data = [b0; b1; b2; b3].
Proof.
  intros H. unfold slice.
  replace (i + 4 - i)%nat with 4%nat by lia.
  assert (L : length (take 4 (drop i data)) = 4%nat).
  { rewrite length_take, length_drop. lia. }
  destruct (take 4 (drop i data)) as [|b0 [|b1 [|b2 [|b3 [|b4 l]]]]]; try discriminate.
  now exists b0, b1, b2, b3.
Qed.

Lemma unpack_i_slice (i : nat) (data : bytes) :
  (i + 4 <= length data)%nat ->
  exists b0 b1 b2 b3,
    slice i (i + 4) data = [b0; b1; b2; b3]
    /\ unpack_i (slice i (i + 4) data) = Returned (le_int32 b0 b1 b2 b3).
Proof.
  intros H. destruct (length_slice_4 i data H) as (b0 & b1 & b2 & b3 & E).
  exists b0, b1, b2, b3. rewrite E. split; reflexivity.
Qed.

Lemma slice_slice {A} (a b i j : nat) (l : list A) :
  (i <= j)%nat -> (a + j <= b)%nat -> slice i j (slice a b l) = slice (a + i) (a + j) l.
Proof.
  intros Hij Hb. unfold slice.
  rewrite skipn_firstn_comm, drop_drop, take_take.
  f_equal. lia.
Qed.

(** ** The RL response *)

(** C7: every frame that starts with RL and has at least 14 bytes is
    decoded as the lane-change response whose agentId, result and reason
    code are the three little-endian int32 after the prefix, the result
    shown as success exactly when it is 1; the 14 bytes
    52 4C 0A 00 00 00 01 00 00 00 00 00 00 00 decode to agentId 10,
    success, reason 0.  [listen_for_response] reads the same frame the
    same way. *)
Theorem rl_frame_decoding (data : bytes)
  (Hprefix : startswith data (blit "RL") = true)
  (Hlen : (14 <= length data)%nat) :
  (exists agent_id result reason,
     unpack_i (slice 2 6 data) = Returned agent_id
     /\ unpack_i (slice 6 10 data) = Returned result
     /\ unpack_i (slice 10 14 data) = Returned reason
     /\ parse_resim_data data = LaneChangeResponse agent_id (result =? 1) reason
     /\ ((result =? 1) = true <-> result = 1)
     /\ listen_for_response_parse data
        = LoggedLaneChangeResponse agent_id (result =? 1) (reason_lookup reason))
  /\ parse_resim_data [x52; x4c; x0a; x00; x00; x00; x01; x00; x00; x00; x00; x00; x00; x00]
     = LaneChangeResponse 10 true 0.
Proof.
  split; [|reflexivity].
  destruct (unpack_i_slice 2 data ltac:(lia)) as (a0 & a1 & a2 & a3 & _ & Ua).
  destruct (unpack_i_slice 6 data ltac:(lia)) as (r0 & r1 & r2 & r3 & _ & Ur).
  destruct (unpack_i_slice 10 data ltac:(lia)) as (c0 & c1 & c2 & c3 & _ & Uc).
  simpl Nat.add in Ua, Ur, Uc.
  exists (le_int32 a0 a1 a2 a3), (le_int32 r0 r1 r2 r3), (le_int32 c0 c1 c2 c3).
  repeat split; try assumption.
  - unfold parse_resim_data. byte_tests.
    replace (length data <? 2)%nat with false by (symmetry; apply Nat.ltb_ge; lia).
    other_prefixes Hprefix. rewrite Hprefix.
    replace (14 <=? length data)%nat with true by (symmetry; apply Nat.leb_le; lia).
    cbn [andb]. rewrite Ua, Ur, Uc. reflexivity.
  - apply Z.eqb_eq.
  - intros ->. reflexivity.
  - unfold listen_for_response_parse, unpack_iii. rewrite Hprefix.
    replace (length (slice 2 14 data) =? 12)%nat with true.
    2:{ symmetry. apply Nat.eqb_eq. unfold slice. rewrite length_take, length_drop. lia. }
    rewrite !slice_slice by lia. simpl Nat.add. rewrite Ua, Ur, Uc. reflexivity.
Qed.

Lemma rl_frame_decoding_witness :
  let data := [x52; x4c; x0a; x00; x00; x00; x01; x00; x00; x00; x00; x00; x00; x00] in
  startswith data (blit "RL") = true
  /\ (14 <= length data)%nat
  /\ parse_resim_data data = LaneChangeResponse 10 true 0.
Proof.
  intros data.
  assert (Hp : startswith data (blit "RL") = true) by reflexivity.
  assert (Hl : (14 <= length data)%nat) by (simpl; lia).
  split; [exact Hp | split; [exact Hl |]].
  exact (proj2 (rl_frame_decoding data Hp Hl)).
Defined.

(** ** The decoder never raises *)

Lemma tspy_after_ts data :
  startswith data (blit "TS") = false -> startswith data (blit "TSPY") = false.
Proof.
  intros H. destruct (startswith data (blit "TSPY")) eqn:E; [|reflexivity].
  change (blit "TSPY") with (blit "TS" ++ blit "PY") in E.
  apply startswith_app in E. congruence.
Qed.

Ltac head_if :=
  match goal with
  | |- exists i, (if ?b then _ else _) = _ /\ _ =>
      let E := fresh "E" in destruct b eqn:E
  end.

Ltac returned := eexists; split; reflexivity.

Lemma parse_resim_data_body_returns data :
  exists i, parse_resim_data_body data = Returned i /\ from_handler i = false.
Proof.
  byte_tests.
  head_if; [returned|].
  head_if; [head_if; returned|].
  head_if; [returned|].
  head_if; [returned|].
  head_if; [returned|].
  head_if; [returned|].
  rewrite (tspy_after_ts data E4).
  head_if.
  { head_if; [|returned].
    apply Nat.leb_le in E6.
    destruct (unpack_i_slice 2 data ltac:(lia)) as (? & ? & ? & ? & _ & U).
    simpl Nat.add in U. rewrite U. returned. }
  head_if.
  { apply andb_true_iff in E6 as [_ L]. apply Nat.leb_le in L.
    destruct (unpack_i_slice 2 data ltac:(lia)) as (? & ? & ? & ? & _ & U1).
    destruct (unpack_i_slice 6 data ltac:(lia)) as (? & ? & ? & ? & _ & U2).
    destruct (unpack_i_slice 10 data ltac:(lia)) as (? & ? & ? & ? & _ & U3).
    simpl Nat.add in U1, U2, U3. rewrite U1, U2, U3. returned. }
  head_if.
  { apply andb_true_iff in E7 as [_ L]. apply Nat.leb_le in L.
    destruct (unpack_i_slice 2 data ltac:(lia)) as (? & ? & ? & ? & _ & U1).
    destruct (unpack_i_slice 6 data ltac:(lia)) as (? & ? & ? & ? & _ & U2).
    destruct (unpack_i_slice 10 data ltac:(lia)) as (? & ? & ? & ? & _ & U3).
    simpl Nat.add in U1, U2, U3. rewrite U1, U2, U3. returned. }
  repeat (head_if; [returned|]).
  returned.
Qed.

(** C5: [parse_resim_data] is total.  On every byte string, the empty
    and the truncated ones included, the body of the decoder returns a
    result without raising, so the outer handler never runs; every
    [struct.unpack] receives exactly the four bytes it needs, so no result
    comes from an exception handler. *)
Theorem parse_resim_data_total (data : bytes) :
  exists i,
    parse_resim_data_body data = Returned i
    /\ parse_resim_data data = i
    /\ from_handler i = false.
Proof.
  destruct (parse_resim_data_body_returns data) as (i & Hb & Hh).
  exists i. unfold parse_resim_data. rewrite Hb. repeat split; assumption.
Qed.

(** ** Hex dumps *)

Lemma length_hexlify data : length (hexlify data) = (2 * length data)%nat.
Proof.
  induction data as [|c data IH]; simpl; [reflexivity|]. rewrite IH. lia.
Qed.

Lemma take_hexlify n data : take (2 * n) (hexlify data) = hexlify (take n data).
Proof.
  revert data. induction n as [|n IH]; intros data.
  - reflexivity.
  - destruct data as [|c data]; [reflexivity|].
    replace (2 * S n)%nat with (S (S (2 * n))) by lia.
    simpl. f_equal. f_equal. apply IH.
Qed.

Lemma take_60_hexlify_short data :
  (length data <= 30)%nat -> take 60 (hexlify data) = hexlify data.
Proof.
  intros H. apply take_ge. rewrite length_hexlify. lia.
Qed.

Lemma take_60_hexlify_long data :
  (30 < length data)%nat -> take 60 (hexlify data) <> hexlify data.
Proof.
  intros H E. apply (f_equal length) in E.
  rewrite length_take, length_hexlify in E. lia.
Qed.

(** ** Short CL frames *)

(** A frame shorter than two bytes is the only one reported as too
    short. *)
Lemma packet_too_short_iff data :
  (exists h, parse_resim_data data = PacketTooShort h) <-> (length data < 2)%nat.
Proof.
  unfold parse_resim_data, parse_resim_data_body.
  destruct (Nat.ltb_spec (length data) 2) as [L|L].
  - split; [intros _; assumption | intros _; eexists; reflexivity].
  - split; [|lia]. intros [h Hh]. exfalso. revert Hh. cbv zeta.
    repeat match goal with
           | |- context [if ?b then _ else _] => destruct b
           end;
    cbn [try_except obind];
    repeat match goal with
           | |- context [unpack_i ?s] => destruct (unpack_i s)
           end; cbn [try_except obind]; discriminate.
Qed.

(** C2 fails as stated: the two bytes 43 4C are not reported as too
    short, they are reported as unrecognized data. *)
Lemma cl_two_bytes_unrecognized :
  parse_resim_data [x43; x4c] = Unrecognized (py "CL") 2 (py "434c")
  /\ ~ (exists h, parse_resim_data [x43; x4c] = PacketTooShort h).
Proof.
  split; [reflexivity|]. intros [h Hh]. discriminate Hh.
Qed.

(** C2, amended: a frame that starts with CL and has fewer than 14 bytes
    fails the length guard of the CL branch and falls through to the last
    return of the decoder: it is reported as unrecognized data, with its
    (up to four) leading bytes decoded as ASCII, its length and its
    complete hex dump.  No exception is raised, and the too-short report
    is not produced. *)
Theorem cl_short_frame_unrecognized (data : bytes)
  (Hprefix : startswith data (blit "CL") = true)
  (Hlen : (length data < 14)%nat) :
  parse_resim_data_body data
  = Returned (Unrecognized (decode_ascii_replace (take 4 data)) (length data) (hexlify data))
  /\ parse_resim_data data
     = Unrecognized (decode_ascii_replace (take 4 data)) (length data) (hexlify data)
  /\ ~ (exists h, parse_resim_data data = PacketTooShort h).
Proof.
  assert (L2 : (2 <= length data)%nat).
  { apply startswith_true_iff in Hprefix. apply (f_equal length) in Hprefix.
    rewrite length_take in Hprefix.
    change (length (blit "CL")) with 2%nat in Hprefix. lia. }
  assert (B : parse_resim_data_body data
              = Returned (Unrecognized (decode_ascii_replace (take 4 data))
                            (length data) (hexlify data))).
  { byte_tests.
    replace (length data <? 2)%nat with false by (symmetry; apply Nat.ltb_ge; lia).
    other_prefixes Hprefix. rewrite Hprefix.
    replace (14 <=? length data)%nat with false by (symmetry; apply Nat.leb_gt; lia).
    cbn [andb orb]. rewrite take_60_hexlify_short by lia. reflexivity. }
  split; [exact B|]. split.
  - unfold parse_resim_data. now rewrite B.
  - rewrite packet_too_short_iff. lia.
Qed.

Lemma cl_short_frame_unrecognized_witness :
  startswith [x43; x4c] (blit "CL") = true
  /\ (length [x43; x4c] < 14)%nat
  /\ parse_resim_data [x43; x4c] = Unrecognized (py "CL") 2 (py "434c").
Proof.
  assert (Hp : startswith [x43; x4c] (blit "CL") = true) by reflexivity.
  assert (Hl : (length [x43; x4c] < 14)%nat) by (simpl; lia).
  split; [exact Hp | split; [exact Hl |]].
  exact (proj1 (proj2 (cl_short_frame_unrecognized [x43; x4c] Hp Hl))).
Defined.

(** ** Frames that start with TSPY *)

Lemma tspy_branch_dead data :
  match parse_resim_data data with
  | CounterTestMessage _ _ | TestMessageNoCounter _ => False
  | _ => True
  end.
Proof.
  unfold parse_resim_data. byte_tests.
  destruct (startswith data (blit "TS")) eqn:T; [|rewrite (tspy_after_ts data T)];
  repeat match goal with
         | |- context [if ?b then _ else _] => destruct b
         end;
  cbn [try_except obind];
  repeat match goal with
         | |- context [unpack_i ?s] => destruct (unpack_i s)
         end; cbn [try_except obind]; exact I.
Qed.

(** C3, on the code: the counter message of send_debug_message.py, which
    starts with the four bytes TSPY, is decoded by the two-byte TS branch
    as traffic-signal data of 31 bytes, because the TS test comes before
    the TSPY test in the chain; no frame at all is ever decoded as a
    counter message. *)
Theorem tspy_frame_taken_by_ts_branch :
  startswith debug_counter_frame (blit "TSPY") = true
  /\ parse_resim_data debug_counter_frame = TrafficSignalData 31
  /\ (forall data counter message,
        parse_resim_data data <> CounterTestMessage counter message)
  /\ (forall data message,
        parse_resim_data data <> TestMessageNoCounter message).
Proof.
  split; [reflexivity|]. split; [reflexivity|]. split.
  - intros data c m E. pose proof (tspy_branch_dead data) as H.
    now rewrite E in H.
  - intros data m E. pose proof (tspy_branch_dead data) as H.
    now rewrite E in H.
Qed.

(** C4, on the code: every frame that starts with TSPY, whatever its
    length, is reported as traffic-signal data carrying only the frame
    length; the counter at bytes 4..8 and the text after it are not
    read. *)
Theorem tspy_prefix_decoded_as_traffic_signal (data : bytes)
  (Hprefix : startswith data (blit "TSPY") = true) :
  parse_resim_data data = TrafficSignalData (length data).
Proof.
  assert (Hts : startswith data (blit "TS") = true).
  { change (blit "TSPY") with (blit "TS" ++ blit "PY") in Hprefix.
    now apply startswith_app in Hprefix. }
  assert (L2 : (2 <= length data)%nat).
  { apply startswith_true_iff in Hts. apply (f_equal length) in Hts.
    rewrite length_take in Hts. change (length (blit "TS")) with 2%nat in Hts. lia. }
  unfold parse_resim_data. byte_tests.
  replace (length data <? 2)%nat with false by (symmetry; apply Nat.ltb_ge; lia).
  rewrite (startswith_conflict data _ (blit "RSd") Hts eq_refl).
  rewrite (startswith_conflict data _ (blit "TEST_") Hprefix eq_refl).
  rewrite (startswith_conflict data _ (blit "AP") Hts eq_refl).
  rewrite (startswith_conflict data _ (blit "AS") Hts eq_refl).
  rewrite Hts. reflexivity.
Qed.

Lemma tspy_prefix_decoded_as_traffic_signal_witness :
  startswith debug_counter_frame (blit "TSPY") = true
  /\ (8 <= length debug_counter_frame)%nat
  /\ unpack_i (slice 4 8 debug_counter_frame) = Returned 1
  /\ parse_resim_data debug_counter_frame = TrafficSignalData 31.
Proof.
  assert (Hp : startswith debug_counter_frame (blit "TSPY") = true) by reflexivity.
  split; [exact Hp|]. split; [simpl; lia|]. split; [reflexivity|].
  exact (tspy_prefix_decoded_as_traffic_signal debug_counter_frame Hp).
Defined.

(** ** Frames with no registered prefix *)

(** C6 fails as stated: 31 bytes 5A match no registered prefix and are
    reported as unrecognized, but the report carries 60 hex digits, not
    the 62 of the frame. *)
Lemma unrecognized_hex_is_truncated :
  let data := repeat x5a 31 in
  (2 <= length data)%nat
  /\ matches_registered_prefix data = false
  /\ parse_resim_data data = Unrecognized (py "ZZZZ") 31 (hexlify (repeat x5a 30))
  /\ ~ (exists prefix size, parse_resim_data data = Unrecognized prefix size (hexlify data)).
Proof.
  intros data. split; [simpl; lia|]. split; [reflexivity|]. split; [reflexivity|].
  intros (p & n & E). vm_compute in E. discriminate E.
Qed.

(** C6, amended: a frame of at least two bytes that starts with none of
    the registered prefixes is reported as unrecognized, with its first
    four bytes (or all of them when it has fewer) decoded as ASCII, its
    length, and the first 60 hex digits of its hex dump, that is, the hex
    representation of its first 30 bytes; the dump is the complete,
    unchanged hex representation of the frame exactly when the frame has
    at most 30 bytes. *)
Theorem unrecognized_frame_report (data : bytes)
  (Hlen : (2 <= length data)%nat)
  (Hnone : matches_registered_prefix data = false) :
  parse_resim_data data
  = Unrecognized (decode_ascii_replace (take 4 data)) (length data) (take 60 (hexlify data))
  /\ take 60 (hexlify data) = hexlify (take 30 data)
  /\ (take 60 (hexlify data) = hexlify data <-> (length data <= 30)%nat).
Proof.
  split; [|split].
  - unfold matches_registered_prefix in Hnone.
    cbn [registered_prefixes map existsb] in Hnone.
    repeat match type of Hnone with
           | _ || _ = false =>
               let H := fresh "H" in
               apply orb_false_iff in Hnone as [H Hnone]
           end.
    unfold parse_resim_data. byte_tests.
    replace (length data <? 2)%nat with false by (symmetry; apply Nat.ltb_ge; lia).
    repeat match goal with
           | H : startswith data _ = false |- _ => rewrite H; clear H
           end.
    reflexivity.
  - change 60%nat with (2 * 30)%nat. apply take_hexlify.
  - split.
    + intros E. destruct (Nat.le_gt_cases (length data) 30) as [L|L]; [assumption|].
      now apply take_60_hexlify_long in L.
    + apply take_60_hexlify_short.
Qed.

Lemma unrecognized_frame_report_witness :
  (2 <= length [x5a; x5a; x01])%nat
  /\ matches_registered_prefix [x5a; x5a; x01] = false
  /\ parse_resim_data [x5a; x5a; x01] = Unrecognized [90; 90; 1]%N 3 (py "5a5a01").
Proof.
  assert (Hl : (2 <= length [x5a; x5a; x01])%nat) by (simpl; lia).
  assert (Hn : matches_registered_prefix [x5a; x5a; x01] = false) by reflexivity.
  split; [exact Hl | split; [exact Hn |]].
  exact (proj1 (unrecognized_frame_report [x5a; x5a; x01] Hl Hn)).
Defined.

(** ** Encoders and out-of-range enum values *)

(** C8 fails as stated: with direction 5 and mode 7 the encoders reject
    nothing; they put 5 and 7 on the wire. *)
Lemma lane_change_out_of_range_is_encoded :
  LaneChangeTest.create_lane_change_command 10 5 7
  = Returned [x43; x4c; x0a; x00; x00; x00; x05; x00; x00; x00; x07; x00; x00; x00]
  /\ (forall (float : Type) (time_sleep : nat -> float -> outcome unit)
             (sendto : nat -> bytes -> pystr * Z -> outcome unit) (interval : float),
         UdpSpecificTest.send_lane_change_command float time_sleep sendto
           10 5 7 1 interval None None
         = [([x43; x4c; x0a; x00; x00; x00; x05; x00; x00; x00; x07; x00; x00; x00],
             (py "127.0.0.1", 20001))]).
Proof.
  split; [reflexivity|]. intros float time_sleep sendto interval.
  apply (send_loop_once float time_sleep sendto).
Qed.

(** C8, amended: the encoders do not check direction or mode against
    {0,1}.  For every int32 agentId, direction and mode, and a distance
    that packs as float32, they succeed and put the values on the wire as
    given, so for values in {0,1} encoding never fails; a direction or mode
    outside {0,1} is rejected only by the command line of
    lane_change_test.py, whose parser refuses it before an encoder is
    called. *)
Theorem lane_change_encoders_do_not_validate
  (float : Type) (pack_f : float -> outcome bytes)
  (agent_id direction mode : Z) (distance : float) (fb : bytes)
  (Ha : - 2 ^ 31 <= agent_id < 2 ^ 31)
  (Hd : - 2 ^ 31 <= direction < 2 ^ 31)
  (Hm : - 2 ^ 31 <= mode < 2 ^ 31)
  (Hf : pack_f distance = Returned fb) :
  let fields := le_bytes4 agent_id ++ le_bytes4 direction ++ le_bytes4 mode in
  let accepted := bool_decide (direction = 0 \/ direction = 1)
                  && bool_decide (mode = 0 \/ mode = 1) in
  LaneChangeTest.create_lane_change_command agent_id direction mode
  = Returned (blit "CL" ++ fields)
  /\ (forall (sleep_length : Type) (time_sleep : nat -> sleep_length -> outcome unit)
             (sendto : nat -> bytes -> pystr * Z -> outcome unit)
             (interval : sleep_length) (ip : option pystr) (port : option Z),
         UdpSpecificTest.send_lane_change_command sleep_length time_sleep sendto
           agent_id direction mode 1 interval ip port
         = [(blit "CL" ++ fields,
             (default UdpSpecificTest.RESIM_IP ip,
              default UdpSpecificTest.RESIM_PORT port))])
  /\ LaneChangeTest.create_assigned_lane_change_command float pack_f
       agent_id direction mode distance
     = Returned (blit "CAL" ++ fields ++ fb)
  /\ LaneChangeTest.main_command float pack_f agent_id direction mode None
     = (if accepted then Some (Returned (blit "CL" ++ fields)) else None)
  /\ LaneChangeTest.main_command float pack_f agent_id direction mode (Some distance)
     = (if accepted then Some (Returned (blit "CAL" ++ fields ++ fb)) else None).
Proof.
  intros fields accepted.
  assert (Hin : forall v, LaneChangeTest.in_choices [0; 1] v = bool_decide (v = 0 \/ v = 1)).
  { intros v. unfold LaneChangeTest.in_choices. cbn [existsb].
    apply Bool.eq_iff_eq_true. rewrite bool_decide_eq_true, !orb_true_iff, !Z.eqb_eq.
    intuition discriminate. }
  assert (E1 : LaneChangeTest.create_lane_change_command agent_id direction mode
               = Returned (blit "CL" ++ fields)).
  { unfold LaneChangeTest.create_lane_change_command.
    now rewrite (pack_iii_ok _ _ _ Ha Hd Hm). }
  assert (E2 : LaneChangeTest.create_assigned_lane_change_command float pack_f
                 agent_id direction mode distance
               = Returned (blit "CAL" ++ fields ++ fb)).
  { unfold LaneChangeTest.create_assigned_lane_change_command, LaneChangeTest.pack_iiif.
    rewrite !pack_i_ok, Hf by assumption. cbn [obind]. unfold fields.
    now rewrite <- !app_assoc. }
  split; [exact E1|]. split.
  { intros sleep_length time_sleep sendto interval ip port.
    unfold UdpSpecificTest.send_lane_change_command.
    rewrite (pack_iii_ok _ _ _ Ha Hd Hm). cbn [obind]. apply send_loop_once. }
  split; [exact E2|].
  unfold LaneChangeTest.main_command. rewrite !Hin, E1, E2. fold accepted.
  split; reflexivity.
Qed.

Lemma lane_change_encoders_do_not_validate_witness :
  LaneChangeTest.create_assigned_lane_change_command unit
    (fun _ => Returned [x00; x00; x20; x41]) 10 5 7 tt
  = Returned [x43; x41; x4c; x0a; x00; x00; x00; x05; x00; x00; x00; x07; x00; x00; x00;
              x00; x00; x20; x41]
  /\ LaneChangeTest.main_command unit (fun _ => Returned [x00; x00; x20; x41]) 10 5 7 None
     = None.
Proof.
  assert (H10 : - 2 ^ 31 <= 10 < 2 ^ 31) by lia.
  assert (H5 : - 2 ^ 31 <= 5 < 2 ^ 31) by lia.
  assert (H7 : - 2 ^ 31 <= 7 < 2 ^ 31) by lia.
  destruct (lane_change_encoders_do_not_validate unit
              (fun _ => Returned [x00; x00; x20; x41]) 10 5 7 tt
              [x00; x00; x20; x41] H10 H5 H7 eq_refl) as (_ & _ & Hc & Hn & _).
  split; [exact Hc | exact Hn].
Defined.

(** ** Traffic statistics *)

Lemma get0_insert (d : gmap pystr Z) (key k : pystr) (v : Z) :
  get0 (<[key := v]> d) k = if bool_decide (key = k) then v else get0 d k.
Proof.
  unfold get0. destruct (bool_decide_reflect (key = k)) as [->|Hne].
  - now rewrite lookup_insert_eq.
  - now rewrite lookup_insert_ne.
Qed.

Lemma on_datagram_total port now data addr st :
  total_packets (on_datagram port now data addr st) = total_packets st + 1.
Proof. reflexivity. Qed.

Lemma on_datagram_counts port now data addr st k :
  get0 (command_counts (on_datagram port now data addr st)) k
  = get0 (command_counts st) k
    + (if counted_under k (now, Datagram data addr) then 1 else 0).
Proof.
  unfold on_datagram, counted_under. cbn [command_counts].
  destruct (2 <=? length data)%nat; cbn [andb]; [|lia].
  rewrite get0_insert.
  destruct (bool_decide_reflect (decode_ascii_replace (take 2 data) = k)) as [->|Hne]; lia.
Qed.

(** C9 fails as stated: a one-byte datagram raises the total to 1 and
    leaves every per-key counter at 0. *)
Lemma short_datagram_not_counted_per_key :
  let st := on_datagram 20000 0 [x41] (py "127.0.0.1", 20001) initial_stats in
  total_packets st = 1
  /\ parse_resim_data [x41] = PacketTooShort (py "41")
  /\ command_counts st = ∅
  /\ ~ (exists key, get0 (command_counts st) key
                    = get0 (command_counts initial_stats) key + 1).
Proof.
  intros st. split; [reflexivity|]. split; [reflexivity|]. split; [reflexivity|].
  intros [key E]. change (command_counts st) with (∅ : gmap pystr Z) in E.
  unfold get0 in E. cbn [initial_stats command_counts] in E.
  rewrite lookup_empty in E. simpl in E. lia.
Qed.

Lemma listener_counts_fold
  (port : Z) (events : list (Z * recv_result)) (st : stats) :
  (forall now data addr,
      let st' := on_datagram port now data addr st in
      total_packets st' = total_packets st + 1
      /\ forall key,
           get0 (command_counts st') key
           = get0 (command_counts st) key
             + (if (2 <=? length data)%nat
                   && bool_decide (decode_ascii_replace (take 2 data) = key)
                then 1 else 0))
  /\ total_packets (udp_listener port events st)
     = total_packets st + Z.of_nat (length (filter is_datagram events))
  /\ (forall key,
        get0 (command_counts (udp_listener port events st)) key
        = get0 (command_counts st) key
          + Z.of_nat (length (filter (counted_under key) events))).
Proof.
  split; [|split].
  - intros now data addr st'. split; [reflexivity|].
    intros key. apply (on_datagram_counts port now data addr st key).
  - revert st. induction events as [|[now ev] events IH]; intros st.
    + simpl. lia.
    + unfold udp_listener in *. cbn [fold_left]. rewrite IH.
      destruct ev as [data addr|]; cbn [listener_step].
      * rewrite on_datagram_total.
        rewrite filter_cons_True by (simpl; exact I). simpl length. lia.
      * rewrite filter_cons_False by (simpl; tauto). lia.
  - intros key. revert st. induction events as [|[now ev] events IH]; intros st.
    + simpl. lia.
    + unfold udp_listener in *. cbn [fold_left]. rewrite IH.
      destruct ev as [data addr|]; cbn [listener_step].
      * rewrite on_datagram_counts.
        destruct (counted_under key (now, Datagram data addr)) eqn:C.
        -- rewrite filter_cons_True by (rewrite C; exact I). simpl length. lia.
        -- rewrite filter_cons_False by (rewrite C; tauto). lia.
      * rewrite filter_cons_False by (simpl; tauto). lia.
Qed.

(** C10: for a datagram of at least two bytes the key of the per-key
    counter is the ASCII decoding (with replacement) of its first two
    bytes, whichever branch of the decoder reports it: that counter grows
    by 1 and no other changes.  A frame that starts with TSPY is counted
    under TS, and a frame that starts with RSd, which the three-byte RSd
    branch reports, is counted under RS. *)
Theorem stats_key_is_two_byte_prefix
  (port now : Z) (data : bytes) (addr : address) (st : stats)
  (Hlen : (2 <= length data)%nat) :
  let key := decode_ascii_replace (take 2 data) in
  let st' := on_datagram port now data addr st in
  command_counts st' = <[key := get0 (command_counts st) key + 1]> (command_counts st)
  /\ get0 (command_counts st') key = get0 (command_counts st) key + 1
  /\ (forall k, get0 (command_counts st') k
                = if bool_decide (key = k) then get0 (command_counts st) key + 1
                  else get0 (command_counts st) k)
  /\ (forall rest, decode_ascii_replace (take 2 (blit "TSPY" ++ rest)) = py "TS")
  /\ (forall rest,
        decode_ascii_replace (take 2 (blit "RSd" ++ rest)) = py "RS"
        /\ parse_resim_data (blit "RSd" ++ rest)
           = if (length rest =? 0)%nat then SyncSignal (py "RSd")
             else VehicleStateData (py "RSd") (3 + length rest)).
Proof.
  intros key st'.
  assert (E : command_counts st'
              = <[key := get0 (command_counts st) key + 1]> (command_counts st)).
  { unfold st', on_datagram. cbn [command_counts].
    replace (2 <=? length data)%nat with true by (symmetry; apply Nat.leb_le; lia).
    reflexivity. }
  split; [exact E|]. rewrite E. split; [|split; [|split]].
  - rewrite get0_insert. now rewrite bool_decide_eq_true_2.
  - intros k. apply get0_insert.
  - reflexivity.
  - intros rest. split; [reflexivity|].
    destruct rest as [|c rest]; reflexivity.
Qed.

Lemma stats_key_is_two_byte_prefix_witness :
  (2 <= length debug_counter_frame)%nat
  /\ command_counts
       (on_datagram 20000 0 debug_counter_frame (py "127.0.0.1", 20001) initial_stats)
     = <[py "TS" := 1]> ∅.
Proof.
  assert (Hl : (2 <= length debug_counter_frame)%nat) by (simpl; lia).
  split; [exact Hl|].
  exact (proj1 (stats_key_is_two_byte_prefix 20000 0 debug_counter_frame
                  (py "127.0.0.1", 20001) initial_stats Hl)).
Defined.

(** * Further properties *)

(** ** Helper lemmas *)

Lemma startswith_length data p :
  startswith data p = true -> (length p <= length data)%nat.
Proof.
  intros H. apply startswith_true_iff in H. apply (f_equal length) in H.
  rewrite length_take in H. lia.
Qed.

Lemma byte_of_Z_of_byte_add c a : byte_of_Z (Z_of_byte c + 256 * a) = c.
Proof.
  apply to_N_inj. apply N2Z.inj. fold (Z_of_byte (byte_of_Z (Z_of_byte c + 256 * a))).
  fold (Z_of_byte c). rewrite Z_of_byte_of_Z.
  pose proof (Z_of_byte_range c).
  replace (Z_of_byte c + 256 * a) with (Z_of_byte c + a * 256) by lia.
  rewrite Z.mod_add by lia. apply Z.mod_small. lia.
Qed.

Lemma shiftr_8_add c a : Z.shiftr (Z_of_byte c + 256 * a) 8 = a.
Proof.
  rewrite Z.shiftr_div_pow2 by lia. change (2 ^ 8) with 256.
  pose proof (Z_of_byte_range c).
  replace (Z_of_byte c + 256 * a) with (Z_of_byte c + a * 256) by lia.
  rewrite Z.div_add by lia. rewrite Z.div_small by lia. lia.
Qed.

Lemma le_int32_range b0 b1 b2 b3 : - 2 ^ 31 <= le_int32 b0 b1 b2 b3 < 2 ^ 31.
Proof.
  rewrite le_int32_eq. cbv zeta.
  pose proof (Z_of_byte_range b0). pose proof (Z_of_byte_range b1).
  pose proof (Z_of_byte_range b2). pose proof (Z_of_byte_range b3).
  change (2 ^ 8) with 256. change (2 ^ 31) with 2147483648.
  change (2 ^ 32) with 4294967296.
  destruct (Z.ltb_spec (Z_of_byte b0 + 256 * (Z_of_byte b1 + 256 * (Z_of_byte b2
               + 256 * Z_of_byte b3))) 2147483648); lia.
Qed.

Lemma le_bytes4_le_int32 b0 b1 b2 b3 :
  le_bytes4 (le_int32 b0 b1 b2 b3) = [b0; b1; b2; b3].
Proof.
  assert (E : exists c, le_int32 b0 b1 b2 b3
              = Z_of_byte b0 + 256 * (Z_of_byte b1 + 256 * (Z_of_byte b2
                + 256 * (Z_of_byte b3 + 256 * c)))).
  { rewrite le_int32_eq. cbv zeta. change (2 ^ 8) with 256.
    change (2 ^ 32) with 4294967296.
    destruct (_ <? _); [exists 0 | exists (-1)]; lia. }
  destruct E as [c ->]. unfold le_bytes4.
  change 16 with (8 + 8). change 24 with (8 + 8 + 8).
  rewrite <- !Z.shiftr_shiftr by lia.
  rewrite !shiftr_8_add, !byte_of_Z_of_byte_add. reflexivity.
Qed.

Lemma pack_unpack_i b0 b1 b2 b3 :
  pack_i (le_int32 b0 b1 b2 b3) = Returned [b0; b1; b2; b3].
Proof.
  rewrite pack_i_ok by apply le_int32_range. now rewrite le_bytes4_le_int32.
Qed.

Lemma length_le_bytes4 (x : Z) : length (le_bytes4 x) = 4%nat.
Proof. reflexivity. Qed.

Lemma not_too_short (data : bytes) :
  (2 <= length data)%nat -> (length data <? 2)%nat = false.
Proof. intros. apply Nat.ltb_ge. lia. Qed.

Lemma parse_unrecognized data :
  (2 <= length data)%nat -> matches_registered_prefix data = false ->
  parse_resim_data data
  = Unrecognized (decode_ascii_replace (take 4 data)) (length data)
      (take 60 (hexlify data)).
Proof.
  intros Hlen Hnone. unfold matches_registered_prefix in Hnone.
  cbn [registered_prefixes map existsb] in Hnone.
  repeat match type of Hnone with
         | _ || _ = false =>
             let H := fresh "H" in
             apply orb_false_iff in Hnone as [H Hnone]
         end.
  unfold parse_resim_data. byte_tests. rewrite not_too_short by assumption.
  repeat match goal with
         | H : startswith data _ = false |- _ => rewrite H; clear H
         end.
  reflexivity.
Qed.

Lemma parse_cl_fields data agent_id direction mode :
  startswith data (blit "CL") = true -> (14 <= length data)%nat ->
  unpack_i (slice 2 6 data) = Returned agent_id ->
  unpack_i (slice 6 10 data) = Returned direction ->
  unpack_i (slice 10 14 data) = Returned mode ->
  parse_resim_data data = LaneChangeCommand agent_id (direction =? 0) (mode =? 0).
Proof.
  intros Hp Hl Ua Ud Um. unfold parse_resim_data. byte_tests.
  rewrite not_too_short by lia. other_prefixes Hp. rewrite Hp.
  replace (14 <=? length data)%nat with true by (symmetry; apply Nat.leb_le; lia).
  cbn [andb]. rewrite Ua, Ud, Um. reflexivity.
Qed.

Lemma parse_rl_fields data agent_id result reason :
  startswith data (blit "RL") = true -> (14 <= length data)%nat ->
  unpack_i (slice 2 6 data) = Returned agent_id ->
  unpack_i (slice 6 10 data) = Returned result ->
  unpack_i (slice 10 14 data) = Returned reason ->
  parse_resim_data data = LaneChangeResponse agent_id (result =? 1) reason.
Proof.
  intros Hp Hl Ua Ud Um. unfold parse_resim_data. byte_tests.
  rewrite not_too_short by lia. other_prefixes Hp. rewrite Hp.
  replace (14 <=? length data)%nat with true by (symmetry; apply Nat.leb_le; lia).
  cbn [andb]. rewrite Ua, Ud, Um. reflexivity.
Qed.

Lemma slices_of_fields (p a d m rest : bytes) :
  length p = 2%nat -> length a = 4%nat -> length d = 4%nat -> length m = 4%nat ->
  slice 2 6 (p ++ a ++ d ++ m ++ rest) = a
  /\ slice 6 10 (p ++ a ++ d ++ m ++ rest) = d
  /\ slice 10 14 (p ++ a ++ d ++ m ++ rest) = m.
Proof.
  intros Hp Ha Hd Hm.
  destruct p as [|p0 [|p1 [|]]]; try discriminate.
  destruct a as [|a0 [|a1 [|a2 [|a3 [|]]]]]; try discriminate.
  destruct d as [|d0 [|d1 [|d2 [|d3 [|]]]]]; try discriminate.
  destruct m as [|m0 [|m1 [|m2 [|m3 [|]]]]]; try discriminate.
  repeat split; reflexivity.
Qed.

Lemma slice_take {A} (i j n : nat) (l : list A) :
  (j <= n)%nat -> slice i j (take n l) = slice i j l.
Proof.
  intros H. unfold slice. rewrite skipn_firstn_comm, take_take. f_equal. lia.
Qed.

(** ** More of the decoder *)

(** X1: every frame that starts with CL and has at least 14 bytes is
    reported as a lane-change command whose vehicle id is the int32 at
    bytes 2..6, shown with direction left exactly when the int32 at bytes
    6..10 is 0 and with mode check-risk exactly when the int32 at bytes
    10..14 is 0; bytes after the 14th are ignored. *)
Theorem cl_frame_decoding (data : bytes)
  (Hprefix : startswith data (blit "CL") = true)
  (Hlen : (14 <= length data)%nat) :
  exists agent_id direction mode,
    unpack_i (slice 2 6 data) = Returned agent_id
    /\ unpack_i (slice 6 10 data) = Returned direction
    /\ unpack_i (slice 10 14 data) = Returned mode
    /\ parse_resim_data data = LaneChangeCommand agent_id (direction =? 0) (mode =? 0)
    /\ parse_resim_data (take 14 data) = parse_resim_data data.
Proof.
  destruct (unpack_i_slice 2 data ltac:(lia)) as (a0 & a1 & a2 & a3 & Sa & Ua).
  destruct (unpack_i_slice 6 data ltac:(lia)) as (d0 & d1 & d2 & d3 & Sd & Ud).
  destruct (unpack_i_slice 10 data ltac:(lia)) as (m0 & m1 & m2 & m3 & Sm & Um).
  simpl Nat.add in *.
  exists (le_int32 a0 a1 a2 a3), (le_int32 d0 d1 d2 d3), (le_int32 m0 m1 m2 m3).
  assert (P : parse_resim_data data
              = LaneChangeCommand (le_int32 a0 a1 a2 a3)
                  (le_int32 d0 d1 d2 d3 =? 0) (le_int32 m0 m1 m2 m3 =? 0))
    by now apply parse_cl_fields.
  repeat split; try assumption.
  rewrite P. apply parse_cl_fields.
  - apply startswith_true_iff. apply startswith_true_iff in Hprefix.
    rewrite take_take. exact Hprefix.
  - rewrite length_take. lia.
  - now rewrite slice_take by lia.
  - now rewrite slice_take by lia.
  - now rewrite slice_take by lia.
Qed.

Lemma cl_frame_decoding_witness :
  let data := [x43; x4c; x07; x00; x00; x00; x01; x00; x00; x00; x00; x00; x00; x00; xff] in
  startswith data (blit "CL") = true
  /\ (14 <= length data)%nat
  /\ parse_resim_data data = LaneChangeCommand 7 false true.
Proof.
  intros data.
  assert (Hp : startswith data (blit "CL") = true) by reflexivity.
  assert (Hl : (14 <= length data)%nat) by (simpl; lia).
  split; [exact Hp | split; [exact Hl |]].
  destruct (cl_frame_decoding data Hp Hl) as (a & d & m & Ua & Ud & Um & P & _).
  injection Ua as <-. injection Ud as <-. injection Um as <-. exact P.
Defined.

(** X2: encode then decode.  For all int32 values the frame built by
    [create_lane_change_command] is reported by the receiver as a
    lane-change command with the same vehicle id; the direction is shown
    as left exactly when it is 0 and the mode as check-risk exactly when it
    is 0, so every other value is shown as right, or as forced. *)
Theorem lane_change_encode_decode (agent_id direction mode : Z)
  (Ha : - 2 ^ 31 <= agent_id < 2 ^ 31)
  (Hd : - 2 ^ 31 <= direction < 2 ^ 31)
  (Hm : - 2 ^ 31 <= mode < 2 ^ 31) :
  exists frame,
    LaneChangeTest.create_lane_change_command agent_id direction mode = Returned frame
    /\ parse_resim_data frame
       = LaneChangeCommand agent_id (bool_decide (direction = 0)) (bool_decide (mode = 0)).
Proof.
  exists (blit "CL" ++ le_bytes4 agent_id ++ le_bytes4 direction ++ le_bytes4 mode).
  split.
  - unfold LaneChangeTest.create_lane_change_command.
    now rewrite (pack_iii_ok _ _ _ Ha Hd Hm).
  - replace (bool_decide (direction = 0)) with (direction =? 0)
      by (apply Bool.eq_iff_eq_true; now rewrite bool_decide_eq_true, Z.eqb_eq).
    replace (bool_decide (mode = 0)) with (mode =? 0)
      by (apply Bool.eq_iff_eq_true; now rewrite bool_decide_eq_true, Z.eqb_eq).
    apply parse_cl_fields; try reflexivity; try (apply Nat.leb_le; reflexivity).
    + change (unpack_i (le_bytes4 agent_id) = Returned agent_id). now apply unpack_pack_i.
    + change (unpack_i (le_bytes4 direction) = Returned direction). now apply unpack_pack_i.
    + change (unpack_i (le_bytes4 mode) = Returned mode). now apply unpack_pack_i.
Qed.

Lemma lane_change_encode_decode_witness :
  exists frame,
    LaneChangeTest.create_lane_change_command (-3) 5 0 = Returned frame
    /\ parse_resim_data frame = LaneChangeCommand (-3) false true.
Proof.
  assert (Ha : - 2 ^ 31 <= -3 < 2 ^ 31) by lia.
  assert (Hd : - 2 ^ 31 <= 5 < 2 ^ 31) by lia.
  assert (Hm : - 2 ^ 31 <= 0 < 2 ^ 31) by lia.
  exact (lane_change_encode_decode (-3) 5 0 Ha Hd Hm).
Defined.

(** X3: a frame that starts with SS is reported in one of two ways.  With
    at least 6 bytes it is a simulation status, named from the int32 at
    bytes 2..6: 0 stopped, 1 running, 2 paused, any other value unknown
    with the value kept.  With 2 to 5 bytes it is reported as status data
    with its length only; no exception is raised either way. *)
Theorem ss_frame_decoding (data : bytes)
  (Hprefix : startswith data (blit "SS") = true) :
  ((6 <= length data)%nat
   /\ exists status,
        unpack_i (slice 2 6 data) = Returned status
        /\ parse_resim_data data = SimulationStatus (status_lookup status)
        /\ (status_lookup status = StatusUnknown status
            <-> status <> 0 /\ status <> 1 /\ status <> 2))
  \/ ((length data < 6)%nat
      /\ parse_resim_data data = SimulationStatusData (length data)).
Proof.
  pose proof (startswith_length _ _ Hprefix) as L2.
  change (length (blit "SS")) with 2%nat in L2.
  destruct (Nat.le_gt_cases 6 (length data)) as [L|L]; [left|right]; split;
    try assumption.
  - destruct (unpack_i_slice 2 data ltac:(lia)) as (b0 & b1 & b2 & b3 & _ & U).
    simpl Nat.add in U. exists (le_int32 b0 b1 b2 b3). split; [exact U|]. split.
    + unfold parse_resim_data. byte_tests. rewrite not_too_short by lia.
      other_prefixes Hprefix. rewrite Hprefix.
      replace (6 <=? length data)%nat with true by (symmetry; apply Nat.leb_le; lia).
      rewrite U. reflexivity.
    + unfold status_lookup.
      destruct (Z.eqb_spec (le_int32 b0 b1 b2 b3) 0);
      destruct (Z.eqb_spec (le_int32 b0 b1 b2 b3) 1);
      destruct (Z.eqb_spec (le_int32 b0 b1 b2 b3) 2);
      split; try discriminate; try tauto; intros (? & ? & ?); contradiction.
  - unfold parse_resim_data. byte_tests. rewrite not_too_short by lia.
    other_prefixes Hprefix. rewrite Hprefix.
    replace (6 <=? length data)%nat with false by (symmetry; apply Nat.leb_gt; lia).
    reflexivity.
Qed.

Lemma ss_frame_decoding_witness :
  startswith [x53; x53; x07; x00; x00; x00] (blit "SS") = true
  /\ parse_resim_data [x53; x53; x07; x00; x00; x00] = SimulationStatus (StatusUnknown 7).
Proof.
  assert (Hp : startswith [x53; x53; x07; x00; x00; x00] (blit "SS") = true) by reflexivity.
  split; [exact Hp|].
  destruct (ss_frame_decoding [x53; x53; x07; x00; x00; x00] Hp)
    as [(_ & s & U & P & _) | (L & _)].
  - injection U as <-. exact P.
  - exfalso. simpl in L. lia.
Defined.

Lemma startswith_non_ascii data p :
  is_ascii (take 2 p) = true -> (2 <= length p)%nat ->
  Exists (fun c => (128 <= Byte.to_N c)%N) (take 2 data) ->
  startswith data p = false.
Proof.
  intros Hp Hl Hna. destruct (startswith data p) eqn:E; [|reflexivity].
  apply startswith_true_iff in E.
  assert (T : take 2 data = take 2 p).
  { transitivity (take 2 (take (length p) data)); [|now rewrite E].
    rewrite take_take. f_equal. lia. }
  rewrite T in Hna. exfalso.
  unfold is_ascii in Hp. rewrite forallb_forall in Hp.
  apply Exists_exists in Hna as (c & Hc & Hge).
  apply list_elem_of_In in Hc. apply Hp in Hc. apply N.ltb_lt in Hc. lia.
Qed.

Lemma non_ascii_no_registered_prefix data :
  Exists (fun c => (128 <= Byte.to_N c)%N) (take 2 data) ->
  matches_registered_prefix data = false.
Proof.
  intros Hna. apply not_true_is_false. intros H.
  unfold matches_registered_prefix in H.
  apply existsb_exists in H as (p & Hin & Hp).
  cbn [registered_prefixes map] in Hin.
  repeat (destruct Hin as [<-|Hin];
          [rewrite startswith_non_ascii in Hp by (try reflexivity; try (simpl; lia); assumption);
           discriminate|]).
  destruct Hin.
Qed.

(** X4: ASCII decoding with replacement never produces a false match.  A
    frame of at least two bytes whose first or second byte is above 0x7f
    matches no branch of the decoder: it is reported as unrecognized, and
    the key it is counted under contains U+FFFD. *)
Theorem non_ascii_prefix_unrecognized (data : bytes)
  (Hlen : (2 <= length data)%nat)
  (Hna : Exists (fun c => (128 <= Byte.to_N c)%N) (take 2 data)) :
  parse_resim_data data
  = Unrecognized (decode_ascii_replace (take 4 data)) (length data)
      (take 60 (hexlify data))
  /\ In 65533%N (decode_ascii_replace (take 2 data)).
Proof.
  split.
  - apply parse_unrecognized; [assumption|]. now apply non_ascii_no_registered_prefix.
  - apply Exists_exists in Hna as (c & Hc & Hge).
    apply list_elem_of_In in Hc. unfold decode_ascii_replace.
    apply in_map_iff. exists c. split; [|assumption].
    destruct (N.ltb_spec (Byte.to_N c) 128); [lia | reflexivity].
Qed.

Lemma non_ascii_prefix_unrecognized_witness :
  parse_resim_data [x43; xe9; x4c] = Unrecognized [67; 65533; 76]%N 3 (py "43e94c").
Proof.
  assert (Hl : (2 <= length [x43; xe9; x4c])%nat) by (simpl; lia).
  assert (Hna : Exists (fun c => (128 <= Byte.to_N c)%N) (take 2 [x43; xe9; x4c])).
  { apply Exists_cons_tl. apply Exists_cons_hd. vm_compute. discriminate. }
  exact (proj1 (non_ascii_prefix_unrecognized [x43; xe9; x4c] Hl Hna)).
Defined.

Lemma prefix2_of_startswith data s :
  is_ascii (blit s) = true -> length (blit s) = 2%nat ->
  startswith data (blit s) = true ->
  decode_ascii_replace (take 2 data) = py s.
Proof.
  intros Ha Hl H. pose proof (prefix_test 2 data s Ha Hl) as E.
  rewrite H in E. unfold str_eqb in E. now apply bool_decide_eq_true in E.
Qed.

(** X5: a frame that starts with RS (but not with RSd), RP, RQ or CC is
    reported as a Resim command with its two-byte prefix and its complete
    hex dump, two digits for every byte of the frame whatever its length;
    the 60-digit cut applies to unrecognized frames only. *)
Theorem resim_command_full_hex (data : bytes) (p : string)
  (Hin : In p ["RS"; "RP"; "RQ"; "CC"]%string)
  (Hprefix : startswith data (blit p) = true)
  (Hrsd : startswith data (blit "RSd") = false) :
  parse_resim_data data = ResimCommand (py p) (hexlify data)
  /\ length (hexlify data) = (2 * length data)%nat.
Proof.
  split; [|apply length_hexlify].
  pose proof (startswith_length _ _ Hprefix) as L2.
  cbn [In] in Hin. destruct Hin as [<-|[<-|[<-|[<-|[]]]]];
    change (length (blit _)) with 2%nat in L2;
    unfold parse_resim_data; byte_tests; rewrite not_too_short by lia;
    rewrite Hrsd; other_prefixes Hprefix; rewrite Hprefix; cbn [orb];
    match type of Hprefix with
    | startswith _ (blit ?s) = _ =>
        rewrite (prefix2_of_startswith data s eq_refl eq_refl Hprefix)
    end; reflexivity.
Qed.

Lemma resim_command_full_hex_witness :
  parse_resim_data (blit "RS" ++ repeat x00 40)
  = ResimCommand (py "RS") (hexlify (blit "RS" ++ repeat x00 40))
  /\ length (hexlify (blit "RS" ++ repeat x00 40)) = 84%nat.
Proof.
  assert (Hin : In "RS"%string ["RS"; "RP"; "RQ"; "CC"]%string) by (left; reflexivity).
  assert (Hp : startswith (blit "RS" ++ repeat x00 40) (blit "RS") = true) by reflexivity.
  assert (Hn : startswith (blit "RS" ++ repeat x00 40) (blit "RSd") = false) by reflexivity.
  exact (resim_command_full_hex (blit "RS" ++ repeat x00 40) "RS" Hin Hp Hn).
Defined.

(** X6: the branches for TEST_, AP, AS, TS, CS, CP and CR are reached by
    every frame that starts with their literal, whatever follows it: a
    TEST_ frame is reported with the text of the whole datagram, the
    literal included; AP, AS and TS frames are reported with their length
    only; CS, CP and CR frames as the start, pause and resume commands,
    their payload ignored. *)
Theorem payload_independent_branches (rest : bytes) :
  parse_resim_data (blit "TEST_" ++ rest) = TestString (Utf8Replace (blit "TEST_" ++ rest))
  /\ parse_resim_data (blit "AP" ++ rest) = AgentPositionData (2 + length rest)
  /\ parse_resim_data (blit "AS" ++ rest) = AgentStateData (2 + length rest)
  /\ parse_resim_data (blit "TS" ++ rest) = TrafficSignalData (2 + length rest)
  /\ parse_resim_data (blit "CS" ++ rest) = StartSimulationCommand
  /\ parse_resim_data (blit "CP" ++ rest) = PauseSimulationCommand
  /\ parse_resim_data (blit "CR" ++ rest) = ResumeSimulationCommand.
Proof.
  destruct rest as [|c rest]; repeat split; reflexivity.
Qed.

(** X7: a response that starts with RL but has fewer than 14 bytes is
    handled differently by the two readers: [listen_for_response] tries to
    unpack it, gets struct.error and logs a parse error, while the
    receiver does not enter its RL branch and reports unrecognized
    data. *)
Theorem short_rl_response (data : bytes)
  (Hprefix : startswith data (blit "RL") = true)
  (Hlen : (length data < 14)%nat) :
  listen_for_response_parse data = LoggedParseError StructError
  /\ parse_resim_data data
     = Unrecognized (decode_ascii_replace (take 4 data)) (length data) (hexlify data).
Proof.
  pose proof (startswith_length _ _ Hprefix) as L2.
  change (length (blit "RL")) with 2%nat in L2.
  split.
  - unfold listen_for_response_parse, unpack_iii. rewrite Hprefix.
    replace (length (slice 2 14 data) =? 12)%nat with false; [reflexivity|].
    symmetry. apply Nat.eqb_neq. unfold slice. rewrite length_take, length_drop. lia.
  - unfold parse_resim_data. byte_tests. rewrite not_too_short by lia.
    other_prefixes Hprefix. rewrite Hprefix.
    replace (14 <=? length data)%nat with false by (symmetry; apply Nat.leb_gt; lia).
    cbn [andb orb]. rewrite take_60_hexlify_short by lia. reflexivity.
Qed.

Lemma short_rl_response_witness :
  listen_for_response_parse [x52; x4c; x0a; x00; x00; x00] = LoggedParseError StructError
  /\ parse_resim_data [x52; x4c; x0a; x00; x00; x00]
     = Unrecognized (py "RL" ++ [10; 0]%N) 6 (py "524c0a000000").
Proof.
  assert (Hp : startswith [x52; x4c; x0a; x00; x00; x00] (blit "RL") = true) by reflexivity.
  assert (Hl : (length [x52; x4c; x0a; x00; x00; x00] < 14)%nat) by (simpl; lia).
  exact (short_rl_response [x52; x4c; x0a; x00; x00; x00] Hp Hl).
Defined.

(** ** Errors of the encoders *)

Lemma pack_iii_cases a b c :
  (- 2 ^ 31 <= a < 2 ^ 31 /\ - 2 ^ 31 <= b < 2 ^ 31 /\ - 2 ^ 31 <= c < 2 ^ 31
   /\ pack_iii a b c = Returned (le_bytes4 a ++ le_bytes4 b ++ le_bytes4 c))
  \/ (~ (- 2 ^ 31 <= a < 2 ^ 31 /\ - 2 ^ 31 <= b < 2 ^ 31 /\ - 2 ^ 31 <= c < 2 ^ 31)
      /\ pack_iii a b c = Raised StructError).
Proof.
  unfold pack_iii, pack_i.
  destruct (int32_ok a) eqn:Ea; [|right; split; [|reflexivity]].
  2:{ intros (H & _ & _). apply int32_ok_spec in H. congruence. }
  destruct (int32_ok b) eqn:Eb; [|right; split; [|reflexivity]].
  2:{ intros (_ & H & _). apply int32_ok_spec in H. congruence. }
  destruct (int32_ok c) eqn:Ec; [|right; split; [|reflexivity]].
  2:{ intros (_ & _ & H). apply int32_ok_spec in H. congruence. }
  left. apply int32_ok_spec in Ea, Eb, Ec. repeat split; tauto.
Qed.

(** X8: [create_lane_change_command] raises struct.error exactly when one
    of its three arguments is outside the int32 range; the exception is
    not handled in the function.  In every other case it returns a frame
    of exactly 14 bytes. *)
Theorem create_lane_change_command_errors (agent_id direction mode : Z) :
  let in_range := - 2 ^ 31 <= agent_id < 2 ^ 31 /\ - 2 ^ 31 <= direction < 2 ^ 31
                  /\ - 2 ^ 31 <= mode < 2 ^ 31 in
  (LaneChangeTest.create_lane_change_command agent_id direction mode = Raised StructError
   <-> ~ in_range)
  /\ ((exists frame,
         LaneChangeTest.create_lane_change_command agent_id direction mode = Returned frame
         /\ length frame = 14%nat)
      <-> in_range).
Proof.
  intros in_range. unfold LaneChangeTest.create_lane_change_command.
  destruct (pack_iii_cases agent_id direction mode) as [(Ha & Hd & Hm & E)|(Hn & E)];
    rewrite E; cbn [obind].
  - split; split.
    + discriminate.
    + intros H. exfalso. apply H. unfold in_range. tauto.
    + intros _. unfold in_range. tauto.
    + intros _. eexists. split; reflexivity.
  - split; split.
    + intros _. exact Hn.
    + reflexivity.
    + intros (f & H & _). discriminate.
    + intros H. contradiction.
Qed.

Section SendLaneChange.
Variable float : Type.
Variable time_sleep : nat -> float -> outcome unit.
Variable sendto : nat -> bytes -> pystr * Z -> outcome unit.



End SendLaneChange.

(** ** The list of recent commands *)

Lemma length_lastn {A} (n : nat) (l : list A) : length (lastn n l) = min n (length l).
Proof. unfold lastn. rewrite length_drop. lia. Qed.

Lemma lastn_all {A} (n : nat) (l : list A) : (length l <= n)%nat -> lastn n l = l.
Proof.
  intros H. unfold lastn. replace (length l - n)%nat with 0%nat by lia. reflexivity.
Qed.

Lemma lastn_app_lastn {A} (n : nat) (l k : list A) :
  lastn n (lastn n l ++ k) = lastn n (l ++ k).
Proof.
  destruct (Nat.le_gt_cases (length l) n) as [L|L].
  - now rewrite (lastn_all n l L).
  - unfold lastn at 1 3. rewrite !length_app, length_lastn.
    replace (min n (length l)) with n by lia.
    unfold lastn.
    replace (length l + length k - n)%nat with ((length l - n) + (n + length k - n))%nat by lia.
    rewrite <- drop_drop. f_equal. rewrite drop_app_le by lia. reflexivity.
Qed.

Lemma on_datagram_last_commands port now data addr st :
  last_commands (on_datagram port now data addr st)
  = lastn 100 (last_commands st ++ records_of port (now, Datagram data addr)).
Proof.
  unfold on_datagram, records_of. cbn [last_commands].
  destruct (Nat.ltb_spec 100
              (length (last_commands st ++
                 [{| cmd_time := now; cmd_port := port; cmd_from := addr;
                     cmd_data := hexlify data; cmd_info := parse_resim_data data |}])));
    [reflexivity|].
  now rewrite lastn_all by lia.
Qed.

Lemma last_commands_fold
  (port : Z) (events : list (Z * recv_result)) (st : stats)
  (Hbound : (length (last_commands st) <= 100)%nat) :
  last_commands (udp_listener port events st)
  = lastn 100 (last_commands st ++ flat_map (records_of port) events)
  /\ (length (last_commands (udp_listener port events st)) <= 100)%nat.
Proof.
  assert (E : last_commands (udp_listener port events st)
              = lastn 100 (last_commands st ++ flat_map (records_of port) events)).
  { revert st Hbound. induction events as [|[now ev] events IH]; intros st Hbound.
    - simpl. rewrite app_nil_r. now rewrite lastn_all.
    - unfold udp_listener in *. cbn [fold_left flat_map]. rewrite IH.
      + destruct ev as [data addr|]; cbn [listener_step].
        * rewrite on_datagram_last_commands, lastn_app_lastn.
          now rewrite <- app_assoc.
        * reflexivity.
      + destruct ev as [data addr|]; cbn [listener_step]; [|assumption].
        rewrite on_datagram_last_commands, length_lastn. lia. }
  split; [exact E|]. rewrite E, length_lastn. lia.
Qed.

Lemma on_datagram_newest
  (port now : Z) (data : bytes) (addr : address) (st : stats) :
  let st' := on_datagram port now data addr st in
  last (last_commands st')
  = Some {| cmd_time := now; cmd_port := port; cmd_from := addr;
            cmd_data := hexlify data; cmd_info := parse_resim_data data |}
  /\ last_packet_time st' = Some now
  /\ length (last_commands st') = min 100 (length (last_commands st) + 1).
Proof.
  intros st'. unfold st'. rewrite on_datagram_last_commands.
  split; [|split].
  - unfold lastn, records_of. rewrite length_app. cbn [length].
    set (r := {| cmd_time := now; cmd_port := port; cmd_from := addr;
                 cmd_data := hexlify data; cmd_info := parse_resim_data data |}).
    destruct (Nat.le_gt_cases (length (last_commands st) + 1 - 100)
                (length (last_commands st))) as [L|L]; [|lia].
    rewrite drop_app_le by lia. apply last_snoc.
  - reflexivity.
  - rewrite length_lastn, length_app. cbn [records_of length]. lia.
Qed.

(** ** The time of the last packet *)

Lemma udp_listener_snoc port events ev st :
  udp_listener port (events ++ [ev]) st
  = listener_step port (udp_listener port events st) ev.
Proof. unfold udp_listener. now rewrite fold_left_app. Qed.

Lemma last_packet_time_fold
  (port : Z) (events : list (Z * recv_result)) (st : stats) :
  last_packet_time (udp_listener port events st)
  = match last_datagram_time events with
    | Some t => Some t
    | None => last_packet_time st
    end.
Proof.
  unfold last_datagram_time.
  induction events as [|[now ev] events IH] using rev_ind.
  - reflexivity.
  - rewrite udp_listener_snoc, filter_app, map_app.
    destruct ev as [data addr|]; cbn [listener_step].
    + rewrite filter_cons_True by (simpl; exact I). rewrite filter_nil.
      cbn [map fst]. now rewrite last_snoc.
    + rewrite filter_cons_False by (simpl; tauto). rewrite filter_nil.
      cbn [map]. now rewrite app_nil_r.
Qed.

(** ** The sum of the per-key counters *)

Lemma counts_sum_incr (d : gmap pystr Z) (k : pystr) :
  counts_sum (<[k := get0 d k + 1]> d) = counts_sum d + 1.
Proof.
  unfold counts_sum, get0.
  destruct (d !! k) as [v|] eqn:E; cbn [default].
  - rewrite <- (insert_delete_eq d k (v + 1)).
    rewrite map_fold_insert_L; [| intros; lia | apply lookup_delete_eq].
    rewrite (map_fold_delete_L _ _ k v d); [lia | intros; lia | exact E].
  - rewrite map_fold_insert_L; [lia | intros; lia | exact E].
Qed.

Lemma on_datagram_counts_sum port now data addr st :
  counts_sum (command_counts (on_datagram port now data addr st))
  = counts_sum (command_counts st)
    + (if has_key (now, Datagram data addr) then 1 else 0).
Proof.
  unfold on_datagram, has_key. cbn [command_counts].
  destruct (2 <=? length data)%nat; [apply counts_sum_incr | lia].
Qed.

Lemma run_totals port events st :
  total_packets (udp_listener port events st)
  = total_packets st + Z.of_nat (length (filter is_datagram events))
  /\ counts_sum (command_counts (udp_listener port events st))
     = counts_sum (command_counts st) + Z.of_nat (length (filter has_key events))
  /\ (length (filter has_key events) <= length (filter is_datagram events))%nat.
Proof.
  revert st. induction events as [|[now ev] events IH]; intros st.
  - simpl. repeat split; lia.
  - unfold udp_listener in *. cbn [fold_left].
    destruct (IH (listener_step port st (now, ev))) as (IHt & IHc & IHl).
    rewrite IHt, IHc. destruct ev as [data addr|]; cbn [listener_step].
    + rewrite on_datagram_total, on_datagram_counts_sum.
      rewrite (filter_cons_True is_datagram) by (simpl; exact I).
      destruct (has_key (now, Datagram data addr)) eqn:K.
      * rewrite (filter_cons_True has_key) by (rewrite K; exact I).
        simpl length. repeat split; lia.
      * rewrite (filter_cons_False has_key) by (rewrite K; tauto).
        simpl length. repeat split; lia.
    + rewrite (filter_cons_False is_datagram) by (simpl; tauto).
      rewrite (filter_cons_False has_key) by (simpl; tauto).
      repeat split; lia.
Qed.

Lemma counts_sum_fold (port : Z) (events : list (Z * recv_result)) (st : stats) :
  let st' := udp_listener port events st in
  let keyed := Z.of_nat (length (filter has_key events)) in
  let received := Z.of_nat (length (filter is_datagram events)) in
  counts_sum (command_counts st') = counts_sum (command_counts st) + keyed
  /\ total_packets st' - counts_sum (command_counts st')
     = total_packets st - counts_sum (command_counts st) + (received - keyed)
  /\ 0 <= keyed <= received
  /\ counts_sum (command_counts (udp_listener port events initial_stats))
     <= total_packets (udp_listener port events initial_stats).
Proof.
  intros st' keyed received.
  destruct (run_totals port events st) as (Ht & Hc & Hl).
  destruct (run_totals port events initial_stats) as (Ht0 & Hc0 & _).
  fold st' in Ht, Hc. fold keyed in Hc, Hc0. fold received in Ht, Ht0.
  assert (counts_sum (command_counts initial_stats) = 0) as Z0 by reflexivity.
  assert (total_packets initial_stats = 0) as T0 by reflexivity.
  unfold keyed, received in *. repeat split; lia.
Qed.

(** ** The simulator of resim_simulator.py *)

Lemma listen_for_response_fields data agent_id result reason :
  startswith data (blit "RL") = true -> (14 <= length data)%nat ->
  unpack_i (slice 2 6 data) = Returned agent_id ->
  unpack_i (slice 6 10 data) = Returned result ->
  unpack_i (slice 10 14 data) = Returned reason ->
  listen_for_response_parse data
  = LoggedLaneChangeResponse agent_id (result =? 1) (reason_lookup reason).
Proof.
  intros Hp Hl Ua Ur Uc. unfold listen_for_response_parse, unpack_iii. rewrite Hp.
  replace (length (slice 2 14 data) =? 12)%nat with true.
  2:{ symmetry. apply Nat.eqb_eq. unfold slice. rewrite length_take, length_drop. lia. }
  rewrite !slice_slice by lia. simpl Nat.add. rewrite Ua, Ur, Uc. reflexivity.
Qed.

Lemma handle_command_cl data :
  startswith data (blit "CL") = true -> (14 <= length data)%nat ->
  ResimSimulator.handle_command data
  = Returned (Some (blit "RL" ++ slice 2 6 data ++ le_bytes4 1 ++ le_bytes4 0)).
Proof.
  intros Hp Hl. unfold ResimSimulator.handle_command.
  rewrite not_too_short by lia. cbv zeta.
  rewrite !(prefix_test 2) by reflexivity.
  other_prefixes Hp. rewrite Hp.
  replace (14 <=? length data)%nat with true by (symmetry; apply Nat.leb_le; lia).
  cbn [andb].
  destruct (unpack_i_slice 2 data ltac:(lia)) as (a0 & a1 & a2 & a3 & Sa & Ua).
  destruct (unpack_i_slice 6 data ltac:(lia)) as (d0 & d1 & d2 & d3 & _ & Ud).
  destruct (unpack_i_slice 10 data ltac:(lia)) as (m0 & m1 & m2 & m3 & _ & Um).
  simpl Nat.add in *. rewrite Ua, Ud, Um, Sa. cbn [obind try_except].
  unfold pack_iii. rewrite pack_unpack_i. reflexivity.
Qed.

(** X14: [handle_command] never raises, and it answers exactly the
    datagrams that start with CS, with CP, with TEST_, or with CL and have
    at least 14 bytes; every other datagram, the ones shorter than two
    bytes and the CL commands shorter than 14 bytes included, gets no
    response. *)
Theorem handle_command_responds (data : bytes) :
  exists response,
    ResimSimulator.handle_command data = Returned response
    /\ (response = None
        <-> startswith data (blit "CS") = false
            /\ startswith data (blit "CP") = false
            /\ startswith data (blit "TEST_") = false
            /\ (startswith data (blit "CL") = false \/ (length data < 14)%nat)).
Proof.
  unfold ResimSimulator.handle_command.
  destruct (Nat.ltb_spec (length data) 2) as [L|L].
  - exists None. split; [reflexivity|]. split; [|reflexivity]. intros _.
    assert (F : forall s, (2 <= length (blit s))%nat -> startswith data (blit s) = false).
    { intros s Hs. destruct (startswith data (blit s)) eqn:E; [|reflexivity].
      apply startswith_length in E. lia. }
    repeat split; try (apply F; simpl; lia). right. lia.
  - cbv zeta. rewrite !(prefix_test 2) by reflexivity.
    destruct (startswith data (blit "CS")) eqn:Ecs.
    { eexists. split; [reflexivity|]. split; [discriminate | intros (H & _); discriminate]. }
    destruct (startswith data (blit "CP")) eqn:Ecp.
    { eexists. split; [reflexivity|].
      split; [discriminate | intros (_ & H & _); discriminate]. }
    destruct (startswith data (blit "CL")) eqn:Ecl;
      [destruct (Nat.leb_spec 14 (length data)) as [L14|L14]|]; cbn [andb].
    + pose proof (handle_command_cl data Ecl L14) as H.
      unfold ResimSimulator.handle_command in H.
      rewrite not_too_short in H by lia. cbv zeta in H.
      rewrite !(prefix_test 2) in H by reflexivity.
      rewrite Ecs, Ecp, Ecl in H.
      replace (14 <=? length data)%nat with true in H by (symmetry; apply Nat.leb_le; lia).
      cbn [andb] in H. rewrite H. eexists. split; [reflexivity|].
      split; [discriminate|]. intros (_ & _ & _ & [H'|H']); [discriminate | lia].
    + rewrite (startswith_conflict data _ (blit "TEST_") Ecl eq_refl).
      exists None. split; [reflexivity|]. split; [|reflexivity]. intros _.
      repeat split; try reflexivity. right. assumption.
    + destruct (startswith data (blit "TEST_")) eqn:Et.
      * eexists. split; [reflexivity|].
        split; [discriminate | intros (_ & _ & H & _); discriminate].
      * exists None. split; [reflexivity|]. split; [|reflexivity]. intros _.
        repeat split; try reflexivity. left. reflexivity.
Qed.

(** X15: the response to a CL command of at least 14 bytes is a 14-byte
    RL frame that repeats bytes 2..6 of the command, the vehicle id,
    unchanged, followed by result 1 and reason 0: unpacking the id and
    packing it again gives the same four bytes, and direction and mode do
    not influence the answer. *)
Theorem cl_response_echoes_agent (data : bytes)
  (Hprefix : startswith data (blit "CL") = true)
  (Hlen : (14 <= length data)%nat) :
  exists response,
    ResimSimulator.handle_command data = Returned (Some response)
    /\ response = [x52; x4c] ++ slice 2 6 data ++ [x01; x00; x00; x00; x00; x00; x00; x00]
    /\ length response = 14%nat.
Proof.
  eexists. split; [now apply handle_command_cl|]. split; [reflexivity|].
  destruct (length_slice_4 2 data ltac:(lia)) as (b0 & b1 & b2 & b3 & E).
  simpl Nat.add in E. rewrite E. reflexivity.
Qed.

Lemma cl_response_echoes_agent_witness :
  let data := [x43; x4c; xfe; xff; xff; xff; x09; x00; x00; x00; x09; x00; x00; x00] in
  ResimSimulator.handle_command data
  = Returned (Some [x52; x4c; xfe; xff; xff; xff; x01; x00; x00; x00; x00; x00; x00; x00]).
Proof.
  intros data.
  assert (Hp : startswith data (blit "CL") = true) by reflexivity.
  assert (Hl : (14 <= length data)%nat) by (simpl; lia).
  destruct (cl_response_echoes_agent data Hp Hl) as (r & H & -> & _). exact H.
Defined.

(** X16: a lane change end to end.  For all int32 arguments, the command
    built by [create_lane_change_command] is answered by the simulator,
    and [listen_for_response] logs the answer as a successful lane change
    of the same vehicle with no reason; the receiver reports the same
    answer as a response with result success and reason code 0. *)
Theorem lane_change_end_to_end (agent_id direction mode : Z)
  (Ha : - 2 ^ 31 <= agent_id < 2 ^ 31)
  (Hd : - 2 ^ 31 <= direction < 2 ^ 31)
  (Hm : - 2 ^ 31 <= mode < 2 ^ 31) :
  exists command response,
    LaneChangeTest.create_lane_change_command agent_id direction mode = Returned command
    /\ ResimSimulator.handle_command command = Returned (Some response)
    /\ listen_for_response_parse response
       = LoggedLaneChangeResponse agent_id true ReasonNone
    /\ parse_resim_data response = LaneChangeResponse agent_id true 0.
Proof.
  exists (blit "CL" ++ le_bytes4 agent_id ++ le_bytes4 direction ++ le_bytes4 mode).
  exists (blit "RL" ++ le_bytes4 agent_id ++ le_bytes4 1 ++ le_bytes4 0).
  assert (U1 : unpack_i (le_bytes4 1) = Returned 1) by reflexivity.
  assert (U0 : unpack_i (le_bytes4 0) = Returned 0) by reflexivity.
  pose proof (unpack_pack_i agent_id Ha) as UA.
  split; [|split; [|split]].
  - unfold LaneChangeTest.create_lane_change_command.
    now rewrite (pack_iii_ok _ _ _ Ha Hd Hm).
  - rewrite handle_command_cl; [reflexivity | reflexivity | apply Nat.leb_le; reflexivity].
  - apply (listen_for_response_fields _ agent_id 1 0);
      [reflexivity | apply Nat.leb_le; reflexivity | exact UA | exact U1 | exact U0].
  - apply (parse_rl_fields _ agent_id 1 0);
      [reflexivity | apply Nat.leb_le; reflexivity | exact UA | exact U1 | exact U0].
Qed.

Lemma lane_change_end_to_end_witness :
  exists command response,
    LaneChangeTest.create_lane_change_command 10 0 1 = Returned command
    /\ ResimSimulator.handle_command command = Returned (Some response)
    /\ listen_for_response_parse response = LoggedLaneChangeResponse 10 true ReasonNone
    /\ parse_resim_data response = LaneChangeResponse 10 true 0.
Proof.
  assert (Ha : - 2 ^ 31 <= 10 < 2 ^ 31) by lia.
  assert (Hd : - 2 ^ 31 <= 0 < 2 ^ 31) by lia.
  assert (Hm : - 2 ^ 31 <= 1 < 2 ^ 31) by lia.
  exact (lane_change_end_to_end 10 0 1 Ha Hd Hm).
Defined.

(** X17: the simulator's answers to the control commands are read back by
    the receiver as the state the command asks for: a datagram that starts
    with CS, whatever follows, is answered with SS and the int32 1, which
    the receiver reports as running; one that starts with CP with SS and
    2, reported as paused; a TEST_ datagram is answered with a TEST_
    string, reported as a test string. *)
Theorem control_command_replies (rest : bytes) :
  ResimSimulator.handle_command (blit "CS" ++ rest)
  = Returned (Some [x53; x53; x01; x00; x00; x00])
  /\ parse_resim_data [x53; x53; x01; x00; x00; x00] = SimulationStatus StatusRunning
  /\ ResimSimulator.handle_command (blit "CP" ++ rest)
     = Returned (Some [x53; x53; x02; x00; x00; x00])
  /\ parse_resim_data [x53; x53; x02; x00; x00; x00] = SimulationStatus StatusPaused
  /\ ResimSimulator.handle_command (blit "TEST_" ++ rest)
     = Returned (Some (blit "TEST_RESPONSE_FROM_RESIM"))
  /\ parse_resim_data (blit "TEST_RESPONSE_FROM_RESIM")
     = TestString (Utf8Replace (blit "TEST_RESPONSE_FROM_RESIM")).
Proof. repeat split; reflexivity. Qed.

(** ** The lane changer of resim_lane_change.py *)

Lemma request_lane_change_ok agent_id direction mode :
  - 2 ^ 31 <= agent_id < 2 ^ 31 ->
  ResimLaneChange.request_lane_change agent_id direction mode
  = (true, [blit "FCAL" ++ le_bytes4 agent_id
            ++ le_bytes4 (ResimLaneChange.direction_value direction)
            ++ le_bytes4 (ResimLaneChange.mode_value mode)]).
Proof.
  intros Ha. unfold ResimLaneChange.request_lane_change. cbv zeta.
  rewrite (pack_i_ok agent_id Ha). cbn [obind].
  destruct direction, mode; reflexivity.
Qed.

(** X18: [request_lane_change] takes direction and mode as enum members,
    so the frame it sends always carries 0 or 1 in both fields.  For an
    int32 vehicle id it returns True and sends one 16-byte frame, FCAL
    followed by the three little-endian int32; for any other id it returns
    False and sends nothing.  The receiver has no branch for FCAL: it
    reports the frame as unrecognized, with its complete hex dump. *)
Theorem request_lane_change_frame (agent_id : Z)
  (direction : ResimLaneChange.LaneChangeDirection)
  (mode : ResimLaneChange.LaneChangeMode) :
  (- 2 ^ 31 <= agent_id < 2 ^ 31
   /\ exists frame,
        ResimLaneChange.request_lane_change agent_id direction mode = (true, [frame])
        /\ length frame = 16%nat
        /\ take 4 frame = blit "FCAL"
        /\ unpack_i (slice 4 8 frame) = Returned agent_id
        /\ unpack_i (slice 8 12 frame)
           = Returned (match direction with
                       | ResimLaneChange.LEFT => 0 | ResimLaneChange.RIGHT => 1 end)
        /\ unpack_i (slice 12 16 frame)
           = Returned (match mode with
                       | ResimLaneChange.CHECK_RISK => 0
                       | ResimLaneChange.FORCE_CHANGE => 1 end)
        /\ parse_resim_data frame = Unrecognized (py "FCAL") 16 (hexlify frame))
  \/ (~ (- 2 ^ 31 <= agent_id < 2 ^ 31)
      /\ ResimLaneChange.request_lane_change agent_id direction mode = (false, [])).
Proof.
  destruct (int32_ok agent_id) eqn:E.
  - left. apply int32_ok_spec in E. split; [exact E|].
    eexists. split; [now apply request_lane_change_ok|].
    split; [reflexivity|]. split; [reflexivity|]. split.
    { change (unpack_i (le_bytes4 agent_id) = Returned agent_id). now apply unpack_pack_i. }
    split; [destruct direction; reflexivity|].
    split; [destruct mode; reflexivity|].
    rewrite parse_unrecognized;
      [| apply Nat.leb_le; reflexivity | reflexivity].
    rewrite take_60_hexlify_short by (apply Nat.leb_le; reflexivity).
    reflexivity.
  - right. split.
    + intros H. apply int32_ok_spec in H. congruence.
    + unfold ResimLaneChange.request_lane_change, pack_i. now rewrite E.
Qed.

Lemma other_direction_involutive d :
  ResimLaneChange.other_direction (ResimLaneChange.other_direction d) = d.
Proof. now destruct d. Qed.

Lemma flat_map_after_map {A B C} (g : B -> list C) (f : A -> B) (l : list A) :
  flat_map g (map f l) = flat_map (fun x => g (f x)) l.
Proof.
  induction l as [|x l IH]; [reflexivity|]. cbn [map flat_map]. now rewrite IH.
Qed.

Lemma cyclic_iterations_alternate agent_id current n :
  ResimLaneChange.cyclic_iterations agent_id true current n
  = flat_map
      (fun i => snd (ResimLaneChange.request_lane_change agent_id
                       (if Nat.even i then current
                        else ResimLaneChange.other_direction current)
                       ResimLaneChange.FORCE_CHANGE))
      (seq 0 n).
Proof.
  revert current. induction n as [|n IH]; intros current; [reflexivity|].
  cbn [ResimLaneChange.cyclic_iterations seq flat_map Nat.even]. f_equal.
  rewrite IH, <- seq_shift, flat_map_after_map.
  apply flat_map_ext. intros i.
  rewrite Nat.even_succ, <- Nat.negb_even.
  destruct (Nat.even i); cbn [negb];
    now rewrite ?other_direction_involutive.
Qed.

Lemma cyclic_iterations_fixed agent_id current n :
  ResimLaneChange.cyclic_iterations agent_id false current n
  = concat (repeat (snd (ResimLaneChange.request_lane_change agent_id current
                           ResimLaneChange.FORCE_CHANGE)) n).
Proof.
  induction n as [|n IH]; [reflexivity|].
  cbn [ResimLaneChange.cyclic_iterations repeat concat]. now rewrite IH.
Qed.

(** X19: the cyclic worker always forces the change and starts to the
    left.  With alternation the i-th request (from 0) goes left when i is
    even and right when i is odd; without it every request goes left.  A
    failed request does not stop the loop: the datagrams sent in n
    iterations are those of the n requests, one after the other. *)
Theorem cyclic_worker_directions (agent_id : Z) (n : nat) :
  ResimLaneChange.cyclic_lane_change_worker agent_id true n
  = flat_map
      (fun i => snd (ResimLaneChange.request_lane_change agent_id
                       (if Nat.even i then ResimLaneChange.LEFT
                        else ResimLaneChange.RIGHT)
                       ResimLaneChange.FORCE_CHANGE))
      (seq 0 n)
  /\ ResimLaneChange.cyclic_lane_change_worker agent_id false n
     = concat (repeat (snd (ResimLaneChange.request_lane_change agent_id
                              ResimLaneChange.LEFT ResimLaneChange.FORCE_CHANGE)) n)
  /\ (forall alternate,
        length (ResimLaneChange.cyclic_lane_change_worker agent_id alternate n)
        = if int32_ok agent_id then n else 0%nat).
Proof.
  split; [|split].
  - unfold ResimLaneChange.cyclic_lane_change_worker.
    rewrite cyclic_iterations_alternate. reflexivity.
  - apply cyclic_iterations_fixed.
  - intros alternate. unfold ResimLaneChange.cyclic_lane_change_worker.
    generalize ResimLaneChange.LEFT as current.
    induction n as [|n IH]; intros current; [now destruct (int32_ok agent_id)|].
    cbn [ResimLaneChange.cyclic_iterations]. rewrite length_app, IH.
    unfold ResimLaneChange.request_lane_change, pack_i.
    destruct (int32_ok agent_id); [|reflexivity].
    destruct current; reflexivity.
Qed.

(** ** The continuous sender of send_debug_message.py *)

Lemma parse_tspy_rest rest :
  parse_resim_data (blit "TSPY" ++ rest) = TrafficSignalData (4 + length rest).
Proof. reflexivity. Qed.

Section ContinuousMessages.
Variable float : Type.
Variable time_sleep : nat -> float -> outcome unit.
Variable sendto : nat -> bytes -> pystr * Z -> outcome unit.

Lemma send_from_calls count interval i r :
  (i + r = count)%nat -> Z.of_nat count < 2 ^ 31 ->
  let target := (SendDebugMessage.TARGET_IP, SendDebugMessage.TARGET_PORT) in
  let message := fun j => blit "TSPY" ++ le_bytes4 (Z.of_nat (j + 1))
                          ++ (blit "Continuous test message #"
                              ++ SendDebugMessage.decimal (j + 1)) in
  exists k, (k <= r)%nat /\ (min 1 r <= k)%nat
    /\ SendDebugMessage.send_from float time_sleep sendto count interval i r
       = map (fun j => (message j, target)) (seq i k)
    /\ (forall j, (S j < k)%nat ->
          returns (sendto (i + j)%nat (message (i + j)%nat) target) = true
          /\ returns (time_sleep (i + j)%nat interval) = true)
    /\ ((k < r)%nat ->
          returns (sendto (i + (k - 1))%nat (message (i + (k - 1))%nat) target) = false
          \/ returns (time_sleep (i + (k - 1))%nat interval) = false).
Proof.
  intros Hir Hcount target message. revert i Hir.
  induction r as [|r IH]; intros i Hir.
  - exists 0%nat. split; [lia|]. split; [simpl; lia|]. split; [reflexivity|].
    split; intros; lia.
  - cbn [SendDebugMessage.send_from]. unfold SendDebugMessage.continuous_message.
    rewrite pack_i_ok by lia. cbn [obind].
    fold (message i). fold target.
    destruct (sendto i (message i) target) eqn:Es.
    + destruct r as [|r].
      * assert (Hlast : (i <? count - 1)%nat = false) by (apply Nat.ltb_ge; lia).
        rewrite Hlast. cbn [SendDebugMessage.send_from].
        exists 1%nat. split; [lia|]. split; [simpl; lia|]. split; [reflexivity|].
        split; intros; lia.
      * assert (Hmore : (i <? count - 1)%nat = true) by (apply Nat.ltb_lt; lia).
        rewrite Hmore.
        destruct (time_sleep i interval) eqn:Et.
        -- destruct (IH (S i) ltac:(lia)) as (k & Hk & Hk1 & E & Hall & Hcut).
           exists (S k). split; [lia|]. split; [simpl; lia|].
           split; [now rewrite E|]. split.
           ++ intros [|j] Hj.
              ** rewrite Nat.add_0_r, Es, Et. split; reflexivity.
              ** replace (i + S j)%nat with (S i + j)%nat by lia. apply Hall. lia.
           ++ intros Hlt. simpl in Hk1.
              replace (i + (S k - 1))%nat with (S i + (k - 1))%nat by lia.
              apply Hcut. lia.
        -- exists 1%nat. split; [lia|]. split; [simpl; lia|]. split; [reflexivity|].
           split; [intros; lia|]. intros _. right.
           cbn [Nat.sub]. now rewrite Nat.add_0_r, Et.
    + exists 1%nat. split; [lia|]. split; [simpl; lia|]. split; [reflexivity|].
      split; [intros; lia|]. intros _. left.
      cbn [Nat.sub]. now rewrite Nat.add_0_r, Es.
Qed.

(** X20: for a count below 2^31, the calls of [sendto] made by
    [send_continuous_messages] are those for the counters 1, 2, ... up to
    some k between min(1, count) and count, all to the fixed target;
    the call for counter i+1 carries TSPY, the little-endian int32 i+1 and
    the text ending in the decimal form of i+1, so the counter reads back
    from bytes 4..8, and the receiver's decoder reports each datagram as
    traffic-signal data.  The loop is left at the first exception: all
    calls but the last returned, and so did the [time.sleep(interval)]
    after each of them, and when k is less than [count] the last call
    raised or the sleep after it did. *)
Theorem continuous_messages_sent (count : nat) (interval : float)
  (Hcount : Z.of_nat count < 2 ^ 31) :
  let target := (SendDebugMessage.TARGET_IP, SendDebugMessage.TARGET_PORT) in
  let message := fun i => blit "TSPY" ++ le_bytes4 (Z.of_nat (i + 1))
                          ++ (blit "Continuous test message #"
                              ++ SendDebugMessage.decimal (i + 1)) in
  let calls := SendDebugMessage.send_continuous_messages float time_sleep sendto
                 count interval in
  (exists k, (min 1 count <= k <= count)%nat
     /\ calls = map (fun i => (message i, target)) (seq 0 k)
     /\ (forall j, (S j < k)%nat ->
           returns (sendto j (message j) target) = true
           /\ returns (time_sleep j interval) = true)
     /\ ((k < count)%nat ->
           returns (sendto (k - 1)%nat (message (k - 1)%nat) target) = false
           \/ returns (time_sleep (k - 1)%nat interval) = false))
  /\ (forall i m d, calls !! i = Some (m, d) ->
        unpack_i (slice 4 8 m) = Returned (Z.of_nat (i + 1)))
  /\ Forall (fun c => parse_resim_data (fst c) = TrafficSignalData (length (fst c)))
       calls.
Proof.
  intros target message calls.
  destruct (send_from_calls count interval 0 count eq_refl Hcount)
    as (k & Hk & Hk1 & E & Hall & Hcut).
  fold (SendDebugMessage.send_continuous_messages float time_sleep sendto count interval)
    in E. fold calls in E.
  split; [|split].
  - exists k. split; [lia|]. split; [exact E|]. split; [exact Hall | exact Hcut].
  - intros i m d Hi. rewrite E in Hi. rewrite list_lookup_fmap in Hi.
    destruct (seq 0 k !! i) as [j|] eqn:Hj; [|discriminate].
    apply lookup_seq in Hj as [-> Hlt]. injection Hi as <- _.
    change (unpack_i (le_bytes4 (Z.of_nat (i + 1))) = Returned (Z.of_nat (i + 1))).
    apply unpack_pack_i. lia.
  - rewrite E. apply Forall_forall. intros c Hc.
    apply list_elem_of_In, in_map_iff in Hc as (i & <- & _).
    cbn [fst]. unfold message. rewrite parse_tspy_rest. f_equal.
Qed.

End ContinuousMessages.

Lemma continuous_messages_sent_witness :
  SendDebugMessage.send_continuous_messages unit
    (fun _ _ => Raised ValueError) (fun _ _ _ => Returned tt) 3 tt
  = [(blit "TSPY" ++ [x01; x00; x00; x00] ++ blit "Continuous test message #1",
      (py "127.0.0.1", 20000))].
Proof.
  assert (H : Z.of_nat 3 < 2 ^ 31) by (simpl; lia).
  destruct (continuous_messages_sent unit (fun _ _ => Raised ValueError)
              (fun _ _ _ => Returned tt) 3 tt H) as ((k & Hk & E & Hall & _) & _).
  destruct k as [|[|k]].
  - simpl in Hk. lia.
  - exact E.
  - destruct (Hall 0%nat ltac:(lia)) as (_ & Hs). discriminate Hs.
Defined.

(** ** The assigned lane change on the receiving side *)

(** X21: the frame of [create_assigned_lane_change_command] starts with
    CAL, for which neither the simulator nor the receiver has a branch:
    for all int32 arguments and a distance that packs, the frame has 15
    bytes plus those of the distance, the simulator sends no response to
    it, and the receiver reports it as unrecognized. *)
Theorem assigned_lane_change_unanswered
  (float : Type) (pack_f : float -> outcome bytes)
  (agent_id direction mode : Z) (distance : float) (fb : bytes)
  (Ha : - 2 ^ 31 <= agent_id < 2 ^ 31)
  (Hd : - 2 ^ 31 <= direction < 2 ^ 31)
  (Hm : - 2 ^ 31 <= mode < 2 ^ 31)
  (Hf : pack_f distance = Returned fb) :
  exists frame,
    LaneChangeTest.create_assigned_lane_change_command float pack_f
      agent_id direction mode distance = Returned frame
    /\ length frame = (15 + length fb)%nat
    /\ take 3 frame = blit "CAL"
    /\ ResimSimulator.handle_command frame = Returned None
    /\ parse_resim_data frame
       = Unrecognized (decode_ascii_replace (take 4 frame)) (length frame)
           (take 60 (hexlify frame)).
Proof.
  exists (blit "CAL" ++ le_bytes4 agent_id ++ le_bytes4 direction ++ le_bytes4 mode ++ fb).
  split; [|split; [|split; [|split]]].
  - unfold LaneChangeTest.create_assigned_lane_change_command, LaneChangeTest.pack_iiif.
    rewrite !pack_i_ok, Hf by assumption. reflexivity.
  - reflexivity.
  - reflexivity.
  - reflexivity.
  - apply parse_unrecognized; [cbn [blit length app]; simpl; lia | reflexivity].
Qed.

Lemma assigned_lane_change_unanswered_witness :
  exists frame,
    LaneChangeTest.create_assigned_lane_change_command unit
      (fun _ => Returned [x00; x00; x48; x42]) 10 0 1 tt = Returned frame
    /\ length frame = 19%nat
    /\ ResimSimulator.handle_command frame = Returned None.
Proof.
  assert (Ha : - 2 ^ 31 <= 10 < 2 ^ 31) by lia.
  assert (Hd : - 2 ^ 31 <= 0 < 2 ^ 31) by lia.
  assert (Hm : - 2 ^ 31 <= 1 < 2 ^ 31) by lia.
  destruct (assigned_lane_change_unanswered unit (fun _ => Returned [x00; x00; x48; x42])
              10 0 1 tt [x00; x00; x48; x42] Ha Hd Hm eq_refl)
    as (frame & Hc & Hl & _ & Hh & _).
  exists frame. split; [exact Hc | split; [exact Hl | exact Hh]].
Defined.

(** ** Hex dumps identify the datagram *)

Lemma hexdigit_inj a b :
  (a < 16)%N -> (b < 16)%N -> hexdigit a = hexdigit b -> a = b.
Proof.
  unfold hexdigit. intros Ha Hb.
  destruct (N.ltb_spec a 10), (N.ltb_spec b 10); lia.
Qed.

Lemma hexdigit_range d :
  (d < 16)%N -> (48 <= hexdigit d <= 57 \/ 97 <= hexdigit d <= 102)%N.
Proof.
  unfold hexdigit. intros Hd. destruct (N.ltb_spec d 10); lia.
Qed.

(** X22: the hex dump kept in the list of recent commands determines the
    datagram: it has two characters per byte, each a digit or a letter
    from a to f, and two datagrams with the same dump are equal. *)
Theorem hexlify_identifies_datagram (data : bytes) :
  length (hexlify data) = (2 * length data)%nat
  /\ Forall (fun ch => (48 <= ch <= 57 \/ 97 <= ch <= 102)%N) (hexlify data)
  /\ (forall other, hexlify other = hexlify data -> other = data).
Proof.
  split; [apply length_hexlify|]. split.
  - induction data as [|c data IH]; [constructor|].
    pose proof (Byte.to_N_bounded c).
    cbn [hexlify flat_map app]. constructor; [|constructor; [|exact IH]].
    + apply hexdigit_range. apply N.Div0.div_lt_upper_bound. lia.
    + apply hexdigit_range. apply N.mod_lt. lia.
  - induction data as [|c data IH]; intros [|d other] E; try discriminate;
      [reflexivity|].
    cbn [hexlify flat_map app] in E. injection E as Ehi Elo Erest.
    pose proof (Byte.to_N_bounded c). pose proof (Byte.to_N_bounded d).
    apply hexdigit_inj in Ehi;
      [| apply N.Div0.div_lt_upper_bound; lia | apply N.Div0.div_lt_upper_bound; lia].
    apply hexdigit_inj in Elo; [| apply N.mod_lt; lia | apply N.mod_lt; lia].
    f_equal; [|now apply IH].
    apply to_N_inj.
    rewrite (N.div_mod (Byte.to_N d) 16), (N.div_mod (Byte.to_N c) 16) by lia.
    now rewrite Ehi, Elo.
Qed.

(** ** One listener, not interleaved *)

Lemma steps_alone_add n m s th :
  steps_alone (n + m) s th
  = let '(s', th') := steps_alone n s th in steps_alone m s' th'.
Proof.
  revert s th. induction n as [|n IH]; intros s th; [reflexivity|].
  cbn [Nat.add steps_alone]. destruct (listener_micro_step s th) as [s1 th1].
  apply IH.
Qed.

Lemma steps_alone_done n s port :
  steps_alone n s {| li_port := port; li_pc := Idle; li_inbox := [] |}
  = (s, {| li_port := port; li_pc := Idle; li_inbox := [] |}).
Proof. induction n as [|n IH]; [reflexivity | exact IH]. Qed.

Lemma stats_of_share st : stats_of (share st) = st.
Proof.
  destruct st as [t tm c l]. unfold stats_of, share, deref. cbn.
  now rewrite lookup_singleton_eq.
Qed.

Lemma deref_insert s r l total time counts cmds next :
  deref {| sh_total := total; sh_time := time; sh_counts := counts; sh_cmds := cmds;
           sh_heap := <[r := l]> (sh_heap s); sh_next := next |} r = l.
Proof. unfold deref. cbn. now rewrite lookup_insert_eq. Qed.

Ltac micro_steps :=
  repeat (cbn [steps_alone listener_micro_step li_pc li_inbox li_port at_pc
               sh_total sh_time sh_counts sh_cmds sh_heap sh_next from_option id];
          unfold deref, after_commands;
          cbn [sh_heap sh_cmds from_option id];
          rewrite ?lookup_insert_eq;
          cbn [from_option id];
          repeat match goal with
                 | H : ?b = _ |- context [if ?b then _ else _] => rewrite H
                 end).

Lemma datagram_alone port now data addr rest s :
  exists n s',
    (n <= 14)%nat
    /\ steps_alone n s {| li_port := port; li_pc := Idle;
                          li_inbox := (now, Datagram data addr) :: rest |}
       = (s', {| li_port := port; li_pc := Idle; li_inbox := rest |})
    /\ stats_of s' = on_datagram port now data addr (stats_of s).
Proof.
  unfold on_datagram, stats_of, deref.
  cbn [total_packets last_packet_time command_counts last_commands].
  destruct (100 <? length (default [] (sh_heap s !! sh_cmds s) ++
              [{| cmd_time := now; cmd_port := port; cmd_from := addr;
                  cmd_data := hexlify data; cmd_info := parse_resim_data data |}]))%nat
    eqn:Etrim;
  destruct (2 <=? length data)%nat eqn:Ekey.
  - exists 14%nat. eexists. split; [lia|]. split; [micro_steps; reflexivity|].
    micro_steps. reflexivity.
  - exists 12%nat. eexists. split; [lia|]. split; [micro_steps; reflexivity|].
    micro_steps. reflexivity.
  - exists 11%nat. eexists. split; [lia|]. split; [micro_steps; reflexivity|].
    micro_steps. reflexivity.
  - exists 9%nat. eexists. split; [lia|]. split; [micro_steps; reflexivity|].
    micro_steps. reflexivity.
Qed.

Lemma listener_alone port events s fuel :
  (14 * length events <= fuel)%nat ->
  exists s',
    steps_alone fuel s {| li_port := port; li_pc := Idle; li_inbox := events |}
    = (s', {| li_port := port; li_pc := Idle; li_inbox := [] |})
    /\ stats_of s' = udp_listener port events (stats_of s).
Proof.
  revert s fuel. induction events as [|[now ev] events IH]; intros s fuel Hf.
  - exists s. split; [apply steps_alone_done | reflexivity].
  - cbn [length] in Hf. destruct ev as [data addr|].
    + destruct (datagram_alone port now data addr events s) as (n & s1 & Hn & E & St).
      replace fuel with (n + (fuel - n))%nat by lia.
      rewrite steps_alone_add, E.
      destruct (IH s1 (fuel - n)%nat ltac:(lia)) as (s' & E' & St').
      exists s'. split; [exact E'|]. rewrite St', St. reflexivity.
    + replace fuel with (1 + (fuel - 1))%nat by lia.
      rewrite steps_alone_add. cbn [steps_alone listener_micro_step li_pc li_inbox li_port].
      destruct (IH s (fuel - 1)%nat ltac:(lia)) as (s' & E' & St').
      exists s'. split; [exact E' | exact St'].
Qed.

Lemma run_single schedule s th :
  run_schedule schedule {| rc_shared := s; rc_listeners := [th] |}
  = let '(s', th') := steps_alone (steps_of 0 schedule) s th in
    {| rc_shared := s'; rc_listeners := [th'] |}.
Proof.
  revert s th. induction schedule as [|i schedule IH]; intros s th; [reflexivity|].
  unfold run_schedule in *. cbn [fold_left]. unfold steps_of in *.
  destruct i as [|i].
  - rewrite filter_cons_True by reflexivity. cbn [length steps_alone].
    unfold schedule_step. cbn [rc_listeners rc_shared lookup list_lookup].
    destruct (listener_micro_step s th) as [s1 th1]. cbn [list_insert insert].
    apply IH.
  - rewrite filter_cons_False by discriminate.
    unfold schedule_step at 2. cbn [rc_listeners lookup list_lookup]. apply IH.
Qed.

Lemma single_listener_refines schedule port events st :
  (14 * length events <= steps_of 0 schedule)%nat ->
  all_done (run_schedule schedule (start [(port, events)] st)) = true
  /\ stats_after schedule [(port, events)] st = udp_listener port events st.
Proof.
  intros H. unfold stats_after, start. cbn [map fst snd]. rewrite run_single.
  destruct (listener_alone port events (share st) _ H) as (s' & E & St).
  rewrite E. cbn [rc_shared]. rewrite St, stats_of_share. split; reflexivity.
Qed.

(** ** The statistics of a receiver with one listener *)

(** C9, amended: for every datagram a listener processes, whatever the
    decoder makes of it, when no other listener thread steps between the
    listener's accesses of the statistics for that datagram (always so
    when a single port is listened on), the total increases by exactly 1;
    the counter of one key, the ASCII decoding of the datagram's first two
    bytes, increases by exactly 1 when the datagram has at least two
    bytes, and no counter when it is shorter; every other counter keeps its
    value.  This holds from any state of the shared statistics.  With a
    single listener, over a whole run the total grows by the number of
    datagrams received and each counter by the number of datagrams counted
    under its key; timeouts change nothing. *)
Theorem stats_updated_once_per_datagram
  (port : Z) (events : list (Z * recv_result)) (st : stats) (schedule : list nat)
  (Hsched : (14 * length events <= steps_of 0 schedule)%nat) :
  (forall s now data addr rest,
      exists n s',
        (n <= 14)%nat
        /\ steps_alone n s {| li_port := port; li_pc := Idle;
                              li_inbox := (now, Datagram data addr) :: rest |}
           = (s', {| li_port := port; li_pc := Idle; li_inbox := rest |})
        /\ sh_total s' = sh_total s + 1
        /\ forall key,
             get0 (sh_counts s') key
             = get0 (sh_counts s) key
               + (if (2 <=? length data)%nat
                     && bool_decide (decode_ascii_replace (take 2 data) = key)
                  then 1 else 0))
  /\ (let st' := stats_after schedule [(port, events)] st in
      total_packets st'
      = total_packets st + Z.of_nat (length (filter is_datagram events))
      /\ (forall key,
            get0 (command_counts st') key
            = get0 (command_counts st) key
              + Z.of_nat (length (filter (counted_under key) events)))).
Proof.
  split.
  - intros s now data addr rest.
    destruct (datagram_alone port now data addr rest s) as (n & s' & Hn & E & St).
    exists n, s'. split; [exact Hn|]. split; [exact E|]. split.
    + change (sh_total s') with (total_packets (stats_of s')). now rewrite St.
    + intros key. change (sh_counts s') with (command_counts (stats_of s')).
      rewrite St. apply (on_datagram_counts port now data addr (stats_of s) key).
  - cbv zeta. rewrite (proj2 (single_listener_refines schedule port events st Hsched)).
    destruct (listener_counts_fold port events st) as (_ & Ht & Hk).
    split; [exact Ht | exact Hk].
Qed.

Lemma stats_updated_once_per_datagram_witness :
  let events := [(1, Datagram (blit "CS") (py "10.0.0.1", 5000));
                 (2, Datagram [x41] (py "10.0.0.1", 5000))] in
  let st' := stats_after (repeat 0%nat 28) [(20000, events)] initial_stats in
  (14 * length events <= steps_of 0 (repeat 0%nat 28))%nat
  /\ total_packets st' = 2
  /\ get0 (command_counts st') (py "CS") = 1
  /\ get0 (command_counts st') (decode_ascii_replace [x41]) = 0.
Proof.
  intros events st'.
  assert (H : (14 * length events <= steps_of 0 (repeat 0%nat 28))%nat)
    by (vm_compute; lia).
  destruct (stats_updated_once_per_datagram 20000 events initial_stats
              (repeat 0%nat 28) H) as (_ & Ht & Hk).
  split; [exact H|]. split; [exact Ht|]. split; [exact (Hk (py "CS"))|].
  exact (Hk (decode_ascii_replace [x41])).
Defined.

(** X10: with a single listener, the list of recent commands is a
    first-in first-out window of 100 entries.  Started with at most 100
    entries, after a run that has processed all receive events it holds
    the last 100 of the old entries followed by one record per received
    datagram, in arrival order, so it never grows beyond 100 and only the
    oldest entries are dropped. *)
Theorem last_commands_window
  (port : Z) (events : list (Z * recv_result)) (st : stats) (schedule : list nat)
  (Hbound : (length (last_commands st) <= 100)%nat)
  (Hsched : (14 * length events <= steps_of 0 schedule)%nat) :
  let st' := stats_after schedule [(port, events)] st in
  all_done (run_schedule schedule (start [(port, events)] st)) = true
  /\ last_commands st'
     = lastn 100 (last_commands st ++ flat_map (records_of port) events)
  /\ (length (last_commands st') <= 100)%nat.
Proof.
  cbv zeta.
  destruct (single_listener_refines schedule port events st Hsched) as (Hd & ->).
  split; [exact Hd|]. apply last_commands_fold. exact Hbound.
Qed.

Lemma last_commands_window_witness :
  let events := [(1, Datagram (blit "CS") (py "h", 1)); (2, SocketTimeout);
                 (3, Datagram (blit "CP") (py "h", 1))] in
  (14 * length events <= steps_of 0 (repeat 0%nat 42))%nat
  /\ map cmd_info
       (last_commands (stats_after (repeat 0%nat 42) [(20000, events)] initial_stats))
     = [StartSimulationCommand; PauseSimulationCommand].
Proof.
  intros events.
  assert (Hb : (length (last_commands initial_stats) <= 100)%nat) by (simpl; lia).
  assert (H : (14 * length events <= steps_of 0 (repeat 0%nat 42))%nat)
    by (vm_compute; lia).
  split; [exact H|].
  destruct (last_commands_window 20000 events initial_stats (repeat 0%nat 42) Hb H)
    as (_ & E & _).
  rewrite E. reflexivity.
Defined.

(** X11: from any state of the shared statistics, when a listener handles
    a datagram with no step of another listener in between, the datagram's
    record is the newest entry of the list of recent commands: it carries
    the complete hex dump of the datagram, the report of the decoder and
    the time stored as the last packet time; the list then has
    min(100, old length + 1) entries. *)
Theorem newest_command_record
  (port now : Z) (data : bytes) (addr : address)
  (rest : list (Z * recv_result)) (s : shared) :
  exists n s',
    (n <= 14)%nat
    /\ steps_alone n s {| li_port := port; li_pc := Idle;
                          li_inbox := (now, Datagram data addr) :: rest |}
       = (s', {| li_port := port; li_pc := Idle; li_inbox := rest |})
    /\ last (last_commands (stats_of s'))
       = Some {| cmd_time := now; cmd_port := port; cmd_from := addr;
                 cmd_data := hexlify data; cmd_info := parse_resim_data data |}
    /\ last_packet_time (stats_of s') = Some now
    /\ length (last_commands (stats_of s'))
       = min 100 (length (last_commands (stats_of s)) + 1).
Proof.
  destruct (datagram_alone port now data addr rest s) as (n & s' & Hn & E & St).
  exists n, s'. split; [exact Hn|]. split; [exact E|]. rewrite St.
  apply on_datagram_newest.
Qed.

(** X12: with a single listener, after a run that has processed all
    receive events the last packet time is the time of the last datagram
    received; a run with timeouts only leaves it as it was. *)
Theorem last_packet_time_of_run
  (port : Z) (events : list (Z * recv_result)) (st : stats) (schedule : list nat)
  (Hsched : (14 * length events <= steps_of 0 schedule)%nat) :
  last_packet_time (stats_after schedule [(port, events)] st)
  = match last_datagram_time events with
    | Some t => Some t
    | None => last_packet_time st
    end.
Proof.
  rewrite (proj2 (single_listener_refines schedule port events st Hsched)).
  apply last_packet_time_fold.
Qed.

Lemma last_packet_time_of_run_witness :
  let events := [(5, Datagram (blit "CS") (py "h", 1)); (9, SocketTimeout)] in
  (14 * length events <= steps_of 0 (repeat 0%nat 28))%nat
  /\ last_packet_time (stats_after (repeat 0%nat 28) [(20000, events)] initial_stats)
     = Some 5.
Proof.
  intros events.
  assert (H : (14 * length events <= steps_of 0 (repeat 0%nat 28))%nat)
    by (vm_compute; lia).
  split; [exact H|].
  exact (last_packet_time_of_run 20000 events initial_stats (repeat 0%nat 28) H).
Defined.

(** X13: with a single listener, over a run that has processed all
    receive events the sum of all per-key counters grows by the number of
    received datagrams of at least two bytes, which is never more than the
    growth of the total; total and sum drift apart by exactly the number of
    datagrams shorter than two bytes.  From the initial state the per-key
    counters never add up to more than the total. *)
Theorem counts_sum_of_run
  (port : Z) (events : list (Z * recv_result)) (st : stats) (schedule : list nat)
  (Hsched : (14 * length events <= steps_of 0 schedule)%nat) :
  let st' := stats_after schedule [(port, events)] st in
  let keyed := Z.of_nat (length (filter has_key events)) in
  let received := Z.of_nat (length (filter is_datagram events)) in
  counts_sum (command_counts st') = counts_sum (command_counts st) + keyed
  /\ total_packets st' - counts_sum (command_counts st')
     = total_packets st - counts_sum (command_counts st) + (received - keyed)
  /\ 0 <= keyed <= received
  /\ counts_sum (command_counts (stats_after schedule [(port, events)] initial_stats))
     <= total_packets (stats_after schedule [(port, events)] initial_stats).
Proof.
  cbv zeta.
  rewrite (proj2 (single_listener_refines schedule port events st Hsched)).
  rewrite (proj2 (single_listener_refines schedule port events initial_stats Hsched)).
  destruct (counts_sum_fold port events st) as (A & B & C & D).
  split; [exact A|]. split; [exact B|]. split; [exact C | exact D].
Qed.

Lemma counts_sum_of_run_witness :
  let events := [(1, Datagram (blit "CS") (py "h", 1)); (2, Datagram [x41] (py "h", 1))] in
  let st' := stats_after (repeat 0%nat 28) [(20000, events)] initial_stats in
  (14 * length events <= steps_of 0 (repeat 0%nat 28))%nat
  /\ counts_sum (command_counts st') = counts_sum (command_counts initial_stats) + 1
  /\ total_packets st' - counts_sum (command_counts st')
     = total_packets initial_stats - counts_sum (command_counts initial_stats) + (2 - 1).
Proof.
  intros events st'.
  assert (H : (14 * length events <= steps_of 0 (repeat 0%nat 28))%nat)
    by (vm_compute; lia).
  split; [exact H|].
  destruct (counts_sum_of_run 20000 events initial_stats (repeat 0%nat 28) H)
    as (A & B & _).
  split; [exact A | exact B].
Defined.

(** ** Several listeners *)

Lemma sum_list_map_insert {A} (f : A -> nat) (l : list A) (i : nat) (x y : A) :
  l !! i = Some x ->
  (sum_list (map f (<[i := y]> l)) + f x = sum_list (map f l) + f y)%nat.
Proof.
  revert i. induction l as [|a l IH]; intros [|i] H; try discriminate.
  - injection H as ->. simpl. lia.
  - simpl in H. specialize (IH i H). simpl. lia.
Qed.

Lemma owes_key_after key data port inbox :
  owes_key key {| li_port := port; li_pc := after_commands data; li_inbox := inbox |}
  = (length (filter (counted_under key) inbox) + if counted key data then 1 else 0)%nat.
Proof.
  unfold owes_key, after_commands, counted. cbn [li_pc li_inbox].
  destruct (2 <=? length data)%nat; reflexivity.
Qed.

Lemma owes_total_after data port inbox :
  owes_total {| li_port := port; li_pc := after_commands data; li_inbox := inbox |}
  = (length (filter is_datagram inbox) + 0)%nat.
Proof.
  unfold owes_total, after_commands. cbn [li_pc li_inbox].
  destruct (2 <=? length data)%nat; reflexivity.
Qed.

Lemma local_ok_after T K key data port inbox :
  local_ok T K key {| li_port := port; li_pc := after_commands data; li_inbox := inbox |}.
Proof.
  unfold local_ok, after_commands. cbn [li_pc].
  destruct (2 <=? length data)%nat; exact I.
Qed.

Lemma local_ok_mono T T' K K' key th :
  T <= T' -> K <= K' -> local_ok T K key th -> local_ok T' K' key th.
Proof.
  unfold local_ok. intros HT HK. destruct (li_pc th); try tauto.
  - lia.
  - intros H E. specialize (H E). lia.
Qed.

Lemma within_bounds_step T K key r i :
  within_bounds T K key r -> within_bounds T K key (schedule_step r i).
Proof.
  intros (Ht & Hk & Hl). unfold schedule_step.
  destruct (rc_listeners r !! i) as [th|] eqn:Eth; [|repeat split; assumption].
  pose proof (Forall_lookup_1 _ _ _ _ Hl Eth) as Hth.
  destruct (listener_micro_step (rc_shared r) th) as [s' th'] eqn:Es.
  unfold within_bounds. cbn [rc_shared rc_listeners].
  pose proof (sum_list_map_insert owes_total _ i th th' Eth) as ST.
  pose proof (sum_list_map_insert (owes_key key) _ i th th' Eth) as SK.
  set (PT := sum_list (map owes_total (rc_listeners r))) in *.
  set (PK := sum_list (map (owes_key key) (rc_listeners r))) in *.
  set (PT' := sum_list (map owes_total (<[i:=th']> (rc_listeners r)))) in *.
  set (PK' := sum_list (map (owes_key key) (<[i:=th']> (rc_listeners r)))) in *.
  assert (Hgoal :
    (owes_total th' <= owes_total th)%nat
    /\ (owes_key key th' <= owes_key key th)%nat
    /\ sh_total s' <= T - Z.of_nat PT + Z.of_nat (owes_total th) - Z.of_nat (owes_total th')
    /\ get0 (sh_counts s') key
       <= K - Z.of_nat PK + Z.of_nat (owes_key key th) - Z.of_nat (owes_key key th')
    /\ local_ok (T - Z.of_nat PT + Z.of_nat (owes_total th) - Z.of_nat (owes_total th'))
         (K - Z.of_nat PK + Z.of_nat (owes_key key th) - Z.of_nat (owes_key key th'))
         key th').
  { clear Hl Eth ST SK PT' PK'. revert Ht Hk Hth Es.
    generalize (Z.of_nat PT) as pt, (Z.of_nat PK) as pk. intros pt pk Ht Hk Hth Es.
    destruct th as [port p inbox]. unfold local_ok in Hth. cbn [li_pc] in Hth.
    unfold listener_micro_step in Es. cbn [li_pc li_inbox li_port at_pc] in Es.
    destruct p; [destruct inbox as [|[now [data addr|]] inbox]|..];
      injection Es as <- <-;
      unfold at_pc; cbn [li_port li_inbox];
      try match goal with
          | |- context [if (100 <? ?n)%nat then _ else _] => destruct (100 <? n)%nat
          end;
      (split; [|split; [|split; [|split]]]);
      rewrite ?owes_key_after, ?owes_total_after;
      try apply local_ok_after;
      unfold owes_total, owes_key, local_ok;
      cbn [li_pc li_inbox li_port at_pc sh_total sh_counts];
      rewrite ?get0_insert;
      rewrite ?(filter_cons_True is_datagram) by exact I;
      rewrite ?(filter_cons_False is_datagram) by (simpl; tauto);
      try (change (counted_under key (now, Datagram data addr)) with (counted key data);
           destruct (counted key data) eqn:Ec;
           [rewrite (filter_cons_True (counted_under key))
              by (unfold counted_under; fold (counted key data); rewrite Ec; exact I)
           |rewrite (filter_cons_False (counted_under key))
              by (unfold counted_under; fold (counted key data); rewrite Ec; tauto)]);
      rewrite ?(filter_cons_False (counted_under key)) by (simpl; tauto);
      cbn [length];
      repeat match goal with
             | |- context [if counted key ?d then _ else _] => destruct (counted key d)
             | |- context [bool_decide (?a = ?b)] =>
                 destruct (bool_decide_reflect (a = b))
             end;
      try exact I; try lia;
      try (intros; subst; try contradiction; try lia);
      try (specialize (Hth eq_refl); lia). }
  destruct Hgoal as (Mt & Mk & Gt & Gk & Gl).
  assert (EPT : Z.of_nat PT' = Z.of_nat PT - Z.of_nat (owes_total th)
                              + Z.of_nat (owes_total th')) by lia.
  assert (EPK : Z.of_nat PK' = Z.of_nat PK - Z.of_nat (owes_key key th)
                              + Z.of_nat (owes_key key th')) by lia.
  split; [lia|]. split; [lia|].
  apply Forall_insert.
  - eapply Forall_impl; [exact Hl|]. intros x Hx.
    eapply local_ok_mono; [| |exact Hx]; lia.
  - eapply local_ok_mono; [| |exact Gl]; lia.
Qed.

Lemma within_bounds_run T K key schedule r :
  within_bounds T K key r -> within_bounds T K key (run_schedule schedule r).
Proof.
  revert r. induction schedule as [|i schedule IH]; intros r H; [exact H|].
  unfold run_schedule in *. cbn [fold_left]. apply IH.
  now apply within_bounds_step.
Qed.

Lemma owes_total_start ports :
  sum_list (map owes_total
    (map (fun pe => {| li_port := fst pe; li_pc := Idle; li_inbox := snd pe |}) ports))
  = datagrams_of ports.
Proof.
  unfold datagrams_of. induction ports as [|pe ports IH]; [reflexivity|].
  cbn [map sum_list]. rewrite IH. unfold owes_total, id. cbn [li_pc li_inbox]. lia.
Qed.

Lemma owes_key_start key ports :
  sum_list (map (owes_key key)
    (map (fun pe => {| li_port := fst pe; li_pc := Idle; li_inbox := snd pe |}) ports))
  = keyed_of key ports.
Proof.
  unfold keyed_of. induction ports as [|pe ports IH]; [reflexivity|].
  cbn [map sum_list]. rewrite IH. unfold owes_key, id. cbn [li_pc li_inbox]. lia.
Qed.

Lemma within_bounds_start key ports st :
  within_bounds (total_packets st + Z.of_nat (datagrams_of ports))
    (get0 (command_counts st) key + Z.of_nat (keyed_of key ports)) key
    (start ports st).
Proof.
  unfold within_bounds, start. cbn [rc_shared rc_listeners share sh_total sh_counts].
  rewrite owes_total_start, owes_key_start.
  split; [lia|]. split; [lia|].
  apply Forall_forall. intros th Hth.
  apply list_elem_of_In, in_map_iff in Hth as (pe & <- & _). exact I.
Qed.

(** X23: with any number of listener threads and under every
    interleaving of their accesses, the unsynchronised counters never
    count too much: at every moment of a run the total is at most its
    initial value plus the number of datagrams the listeners receive, and
    the counter of a key at most its initial value plus the number of
    those datagrams counted under the key.  They can count too little:
    with two listeners that each receive one CS datagram there is a run
    in which both are processed completely and the CS counter ends at 1,
    the store of line 201 of one listener overwriting the other's. *)
Theorem counters_never_exceed
  (ports : list (Z * list (Z * recv_result))) (st : stats)
  (schedule : list nat) (key : pystr) :
  (let st' := stats_after schedule ports st in
   total_packets st' <= total_packets st + Z.of_nat (datagrams_of ports)
   /\ get0 (command_counts st') key
      <= get0 (command_counts st) key + Z.of_nat (keyed_of key ports))
  /\ (let two := [(20000, [(1, Datagram (blit "CS") (py "10.0.0.1", 5000))]);
                  (20001, [(2, Datagram (blit "CS") (py "10.0.0.2", 5000))])] in
      let r := run_schedule (repeat 0%nat 10 ++ repeat 1%nat 11 ++ [0%nat])
                 (start two initial_stats) in
      all_done r = true
      /\ keyed_of (py "CS") two = 2%nat
      /\ total_packets (stats_of (rc_shared r)) = 2
      /\ get0 (command_counts (stats_of (rc_shared r))) (py "CS") = 1).
Proof.
  split.
  - cbv zeta. unfold stats_after.
    pose proof (within_bounds_run _ _ key schedule _ (within_bounds_start key ports st))
      as (Ht & Hk & _).
    cbn [stats_of total_packets command_counts]. split; lia.
  - cbv zeta. repeat split; vm_compute; reflexivity.
Qed.
